(** * Registration backend: OTP request and verify-and-register handlers

    A shallow embedding of [packages/backend/src/index.ts]: the two Express
    handlers [POST /send-otp] and [POST /verify-otp], the collaborators they
    await ([sendOtp], [verifyOtp], [hatsClient.mintHat],
    [publicClient.simulateContract], [walletClient.writeContract] and the
    SQLite handle), and the OTP store the handlers rely on. *)

From Stdlib Require Import ZArith Ascii String List Lia.
From stdpp Require Import base option list strings gmap fin_maps.

Local Open Scope string_scope.
Set Warnings "-clear-no-such-hyp,-register-all".

(** ** JavaScript values and exceptions *)

(** The values a JSON body field or a client-library result field can hold.
    The handlers only ever test such a value for truthiness or call
    [endsWith] on it. Numbers are kept to the integers; [JNaN] stands for
    the one other falsy number. *)
Inductive JsValue : Type :=
  | JUndefined
  | JNull
  | JBool (b : bool)
  | JNumber (n : Z)
  | JNaN
  | JString (s : string)
  | JObject.

(** [ToBoolean]: what [!v] negates. *)
Definition truthy (v : JsValue) : bool :=
  match v with
  | JUndefined | JNull | JNaN => false
  | JBool b => b
  | JNumber n => negb (n =? 0)%Z
  | JString s => negb (String.eqb s "")
  | JObject => true
  end.

(** Exceptions raised by collaborators or by the runtime. *)
Inductive Exn : Type :=
  | Error (message : string)
  | TypeError (message : string)
  | SqliteError (code : string) (message : string).

(** [String.prototype.endsWith(searchString)] with the default end
    position: the last [length searchString] code units of [s] are compared
    with [searchString]; a search string longer than [s] never matches. *)
Definition endsWith (s searchString : string) : bool :=
  let len := String.length s in
  let searchLength := String.length searchString in
  if (searchLength <=? len)%nat
  then String.eqb (substring (len - searchLength) searchLength s) searchString
  else false.

(** [Array.prototype.join] on an array of strings. *)
Fixpoint join (sep : string) (parts : list string) : string :=
  match parts with
  | [] => ""
  | [p] => p
  | p :: rest => p ++ sep ++ join sep rest
  end.

(** ** Requests and responses *)

(** What a handler passes to [res.status(..).json(..)]. [error] is the
    caught exception object when the handler puts it in the body; [errors]
    is the list of schema issues of a rejected [/verify-otp] body. *)
Record Response : Type := mkResponse {
  status : Z;
  message : string;
  error : option Exn;
  errors : option (list string)
}.

Definition json (st : Z) (msg : string) : Response :=
  {| status := st; message := msg; error := None; errors := None |}.

Definition json_error (st : Z) (msg : string) (e : Exn) : Response :=
  {| status := st; message := msg; error := Some e; errors := None |}.

Definition json_errors (st : Z) (msg : string) (es : list string) : Response :=
  {| status := st; message := msg; error := None; errors := Some es |}.

(** The parsed body of [/verify-otp] ([result.data]). *)
Record VerifyOtpData : Type := mkVerifyOtpData {
  email : string;
  otp : JsValue;
  address : string;
  identityCommitment : string
}.

(** A zod issue: only [path] and [message] are read. *)
Record Issue : Type := mkIssue {
  path : list string;
  issue_message : string
}.

Inductive SafeParseResult : Type :=
  | ParseSuccess (data : VerifyOtpData)
  | ParseFailure (issues : list Issue).

(** The result of [hatsClient.mintHat]: the handler reads [status] only. *)
Record MintRes : Type := mkMintRes {
  mint_status : JsValue;
  transactionHash : string
}.

(** ** Collaborators *)

(** Completion of an awaited call: a value, or a thrown exception. *)
Inductive Result (A : Type) : Type :=
  | Ok (a : A)
  | Throw (e : Exn).
Arguments Ok {A} a.
Arguments Throw {A} e.

(** Everything the handlers import and do not define. Each handler calls
    each collaborator at most once, so a collaborator's behaviour during one
    invocation is a function of its arguments. [HAT_ID] is the constant of
    [./constants], [BigInt] the conversion the handler applies to it (it
    throws on a value that is no integer); [VerifyOtpSchema] is the schema
    of [./types]. *)
Record World : Type := mkWorld {
  HAT_ID : JsValue;
  BigInt : JsValue -> Result Z;
  SEMAPHORE_ADDRESS : string;
  safeParse : JsValue -> SafeParseResult;
  sendOtp : string -> Result unit;
  verifyOtp : string -> JsValue -> Result bool;
  mintHat : Z -> string -> Result MintRes;
  encodeAbiParameters : Z -> Result string;
  simulateContract : string -> string -> string -> string -> Result string;
  writeContract : string -> Result string;
  getDb : Result unit;
  db_prepare : string -> Result unit;
  stmt_run : string -> string -> Result unit;
  stmt_finalize : Result unit;
  db_close : Result unit
}.

(** The value of [BigInt(HAT_ID)] when the conversion returns. *)
Definition hatId (w : World) : Z :=
  match BigInt w (HAT_ID w) with
  | Ok n => n
  | Throw _ => 0%Z
  end.

(** One entry per collaborator call, in call order. *)
Inductive Event : Type :=
  | EvSendOtp (email : string)
  | EvVerifyOtp (email : string) (otp : JsValue)
  | EvMintHat (hatId : Z) (wearer : string)
  | EvSimulateContract (address functionName : string) (commitment data : string)
  | EvWriteContract (request : string)
  | EvGetDb
  | EvPrepare (sql : string)
  | EvRun (email address : string)
  | EvFinalize
  | EvClose.

(** ** The handler monad *)

(** The state a handler threads: the collaborator calls made so far
    (oldest first) and the responses written to [res] (oldest first). *)
Record HState : Type := mkHState {
  trace : list Event;
  sent : list Response
}.

Definition init : HState := {| trace := []; sent := [] |}.

Definition M (A : Type) : Type := HState -> HState * Result A.

Definition ret {A} (a : A) : M A := fun s => (s, Ok a).

Definition bind {A B} (m : M A) (k : A -> M B) : M B :=
  fun s =>
    match m s with
    | (s', Ok a) => k a s'
    | (s', Throw e) => (s', Throw e)
    end.

Definition throw {A} (e : Exn) : M A := fun s => (s, Throw e).

(** [try { body } catch (error) { handler }] *)
Definition try_catch {A} (body : M A) (handler : Exn -> M A) : M A :=
  fun s =>
    match body s with
    | (s', Ok a) => (s', Ok a)
    | (s', Throw e) => handler e s'
    end.

(** [try { body } finally { fin }]: [fin] runs whatever [body] did; an
    exception of [fin] replaces the completion of [body]. *)
Definition try_finally {A} (body : M A) (fin : M unit) : M A :=
  fun s =>
    match body s with
    | (s', r) =>
        match fin s' with
        | (s'', Ok _) => (s'', r)
        | (s'', Throw e) => (s'', Throw e)
        end
    end.

(** [await f(..)]: the call is recorded, then completes as the world says. *)
Definition call {A} (ev : Event) (r : Result A) : M A :=
  fun s => ({| trace := trace s ++ [ev]; sent := sent s |}, r).

(** A pure library call that may throw. *)
Definition lift {A} (r : Result A) : M A := fun s => (s, r).

(** [res.status(st).json(body)] *)
Definition respond (r : Response) : M unit :=
  fun s => ({| trace := trace s; sent := sent s ++ [r] |}, Ok tt).

#[global] Instance M_ret : MRet M := @ret.
#[global] Instance M_bind : MBind M := fun A B k m => bind m k.

(** How a statement block completes: it falls through to the next
    statement, or it executed a [return]. *)
Inductive Completion : Type :=
  | Normal
  | Returned.

(** ** POST /send-otp *)

Section Handlers.
Variable w : World.

Definition send_otp_handler (email : JsValue) : M Completion :=
  if negb (truthy email) then
    respond (json 400 "Email is required") ;; ret Returned
  else
    match email with
    | JString e =>
        if negb (endsWith e "@pse.dev") then
          respond (json 400 "Invalid email domain") ;; ret Returned
        else
          try_catch
            (call (EvSendOtp e) (sendOtp w e) ;;
             respond (json 200 "OTP sent successfully") ;; ret Returned)
            (fun error =>
               respond (json_error 500 "Failed to send OTP" error) ;;
               ret Returned)
    | _ => throw (TypeError "email.endsWith is not a function")
    end.

(** ** POST /verify-otp *)

Definition issue_text (issue : Issue) : string :=
  join "." (path issue) ++ " - " ++ issue_message issue.

(** Lines 78-92: convert the hat id, mint the hat, throw when the result's
    status is falsy, answer 500 on any exception, that of the conversion
    included. *)
Definition mint_step (address : string) : M Completion :=
  try_catch
    (hat ← lift (BigInt w (HAT_ID w));
     mintRes ← call (EvMintHat hat address) (mintHat w hat address);
     if negb (truthy (mint_status mintRes))
     then throw (Error "Transaction to mint hat reverted")
     else ret Normal)
    (fun error => respond (json 500 "Failed to mint hat") ;; ret Returned).

(** Lines 98-109: simulate, then write; answer 500 on any exception. *)
Definition semaphore_step (identityCommitment data : string) : M Completion :=
  try_catch
    (request ← call (EvSimulateContract (SEMAPHORE_ADDRESS w) "gateAndAddMember"
                        identityCommitment data)
                     (simulateContract w (SEMAPHORE_ADDRESS w) "gateAndAddMember"
                        identityCommitment data);
     call (EvWriteContract request) (writeContract w request) ;;
     ret Normal)
    (fun error =>
       respond (json 500 "Failed to add account to Semaphore group") ;;
       ret Returned).

Definition insert_sql : string :=
  "INSERT INTO accounts (email, address) VALUES (?, ?)".

(** Lines 111-124: open the database, insert the row, answer, close. *)
Definition store_step (email address : string) : M Completion :=
  call EvGetDb (getDb w) ;;
  try_finally
    (try_catch
       (call (EvPrepare insert_sql) (db_prepare w insert_sql) ;;
        call (EvRun email address) (stmt_run w email address) ;;
        call EvFinalize (stmt_finalize w) ;;
        respond (json 200 "OTP verified successfully") ;; ret Returned)
       (fun error =>
          respond (json_error 500 "Could not store account" error) ;;
          ret Returned))
    (call EvClose (db_close w)).

Definition verify_otp_handler (body : JsValue) : M Completion :=
  match safeParse w body with
  | ParseFailure issues =>
      respond (json_errors 400 "Validation error(s)" (map issue_text issues)) ;;
      ret Returned
  | ParseSuccess data =>
      isValid ← call (EvVerifyOtp (email data) (otp data))
                      (verifyOtp w (email data) (otp data));
      if negb isValid then
        respond (json 400 "Invalid or expired OTP") ;; ret Returned
      else
        c ← mint_step (address data);
        match c with
        | Returned => ret Returned
        | Normal =>
            hat ← lift (BigInt w (HAT_ID w));
            data' ← lift (encodeAbiParameters w hat);
            c ← semaphore_step (identityCommitment data) data';
            match c with
            | Returned => ret Returned
            | Normal => store_step (email data) (address data)
            end
        end
  end.

End Handlers.

(** ** Named outcomes *)

(** The responses the spec names, as the handlers write them. *)
Definition OtpRejected : Response := json 400 "Invalid or expired OTP".
Definition CredentialMintFailed : Response := json 500 "Failed to mint hat".
Definition GroupAdmissionFailed : Response :=
  json 500 "Failed to add account to Semaphore group".
Definition Recorded : Response := json 200 "OTP verified successfully".
Definition LedgerWriteFailed (e : Exn) : Response :=
  json_error 500 "Could not store account" e.

(** Which collaborator an event belongs to. *)
Definition is_otp_issue (ev : Event) : bool :=
  match ev with EvSendOtp _ => true | _ => false end.

Definition is_credential_issuer (ev : Event) : bool :=
  match ev with EvMintHat _ _ => true | _ => false end.

Definition is_group_admission (ev : Event) : bool :=
  match ev with
  | EvSimulateContract _ _ _ _ | EvWriteContract _ => true
  | _ => false
  end.

Definition is_ledger (ev : Event) : bool :=
  match ev with
  | EvGetDb | EvPrepare _ | EvRun _ _ | EvFinalize | EvClose => true
  | _ => false
  end.

(** No event of the trace satisfies [p]. *)
Definition never (p : Event -> bool) (t : list Event) : bool :=
  forallb (fun ev => negb (p ev)) t.

(** The mint step failed as the handler sees it: the conversion of the hat
    id threw, the call threw, or it returned a result whose [status] is
    falsy. *)
Definition mint_failed (w : World) (data : VerifyOtpData) : bool :=
  match BigInt w (HAT_ID w) with
  | Throw _ => true
  | Ok hat =>
      match mintHat w hat (address data) with
      | Ok mintRes => negb (truthy (mint_status mintRes))
      | Throw _ => true
      end
  end.

(** The group admission step failed: the simulation threw, or the write of
    the prepared request threw. *)
Definition admission_failed (w : World) (data : VerifyOtpData) (data' : string) : bool :=
  match simulateContract w (SEMAPHORE_ADDRESS w) "gateAndAddMember"
          (identityCommitment data) data' with
  | Ok request =>
      match writeContract w request with
      | Ok _ => false
      | Throw _ => true
      end
  | Throw _ => true
  end.

(** The first exception of the insert block (prepare, run, finalize), if
    one of them throws. *)
Definition ledger_failure (w : World) (data : VerifyOtpData) : option Exn :=
  match db_prepare w insert_sql with
  | Throw e => Some e
  | Ok _ =>
      match stmt_run w (email data) (address data) with
      | Throw e => Some e
      | Ok _ =>
          match stmt_finalize w with
          | Throw e => Some e
          | Ok _ => None
          end
      end
  end.

(** The steps of the flow at which the handler answers with a failure. *)
Inductive Step : Type :=
  | AtOtp
  | AtMint
  | AtAdmission
  | AtLedger.

(** The step at which a parsed request fails in world [w], if it fails at
    one: [None] when every step succeeds, and when an exception of
    [verifyOtp], [encodeAbiParameters] or [getDb] escapes the handler. *)
Definition failing_step (w : World) (data : VerifyOtpData) : option Step :=
  match verifyOtp w (email data) (otp data) with
  | Throw _ => None
  | Ok false => Some AtOtp
  | Ok true =>
      if mint_failed w data then Some AtMint
      else
        match encodeAbiParameters w (hatId w) with
        | Throw _ => None
        | Ok data' =>
            if admission_failed w data data' then Some AtAdmission
            else
              match getDb w with
              | Throw _ => None
              | Ok _ =>
                  match ledger_failure w data with
                  | Some _ => Some AtLedger
                  | None => None
                  end
              end
        end
  end.

(** The steps of [/send-otp] at which the handler answers with a failure. *)
Inductive SendStep : Type :=
  | AtRequired
  | AtDomain
  | AtSend.

(** The step at which an OTP request fails in world [w], if it fails at
    one: [None] when the OTP is sent, and when the [TypeError] of a truthy
    non-string [email] escapes the handler. *)
Definition send_failing_step (w : World) (email : JsValue) : option SendStep :=
  if negb (truthy email) then Some AtRequired
  else
    match email with
    | JString e =>
        if negb (endsWith e "@pse.dev") then Some AtDomain
        else
          match sendOtp w e with
          | Throw _ => Some AtSend
          | Ok _ => None
          end
    | _ => None
    end.

(** What a response announces: the status and the message, which the
    handler picks; the rest of the body is data attached to them. *)
Definition outcome (r : Response) : Z * string := (status r, message r).

(** The body carries a caught exception. *)
Definition echoes_exception (r : Response) : bool :=
  match error r with
  | Some _ => true
  | None => false
  end.

(** ** Flow positions *)

(** The position of a collaborator call in the flow of [/verify-otp]. *)
Definition rank (ev : Event) : nat :=
  match ev with
  | EvSendOtp _ => 0
  | EvVerifyOtp _ _ => 1
  | EvMintHat _ _ => 2
  | EvSimulateContract _ _ _ _ => 3
  | EvWriteContract _ => 4
  | EvGetDb => 5
  | EvPrepare _ => 6
  | EvRun _ _ => 7
  | EvFinalize => 8
  | EvClose => 9
  end.

(** Strictly increasing. *)
Fixpoint increasing (l : list nat) : bool :=
  match l with
  | a :: ((b :: _) as rest) => (a <? b)%nat && increasing rest
  | _ => true
  end.

(** Every check the handler makes on a parsed request passes in world
    [w], up to and including [stmt.finalize()]: [verifyOtp] returns true, the
    mint passes the handler's test, and no later call throws. A mint result
    with a truthy status passes whatever the status says. *)
Definition all_checks_pass (w : World) (data : VerifyOtpData) : bool :=
  match verifyOtp w (email data) (otp data) with
  | Ok true =>
      negb (mint_failed w data)
      && match encodeAbiParameters w (hatId w) with
         | Ok data' =>
             negb (admission_failed w data data')
             && match getDb w with
                | Ok _ =>
                    match ledger_failure w data with
                    | None => true
                    | Some _ => false
                    end
                | Throw _ => false
                end
         | Throw _ => false
         end
  | _ => false
  end.

(** ** Sample worlds *)

Definition alice : VerifyOtpData :=
  {| email := "alice@pse.dev"; otp := JNumber 4821;
     address := "0xABC"; identityCommitment := "0x123" |}.

(** Every collaborator succeeds. *)
Definition happy : World :=
  {| HAT_ID := JNumber 7;
     BigInt := fun v =>
       match v with
       | JNumber n => Ok n
       | _ => Throw (TypeError "Cannot convert value to a BigInt")
       end;
     SEMAPHORE_ADDRESS := "0x5E";
     safeParse := fun _ => ParseSuccess alice;
     sendOtp := fun _ => Ok tt;
     verifyOtp := fun _ _ => Ok true;
     mintHat := fun _ _ => Ok {| mint_status := JBool true; transactionHash := "0xT1" |};
     encodeAbiParameters := fun _ => Ok "0x07";
     simulateContract := fun _ _ _ _ => Ok "request";
     writeContract := fun _ => Ok "0xT2";
     getDb := Ok tt;
     db_prepare := fun _ => Ok tt;
     stmt_run := fun _ _ => Ok tt;
     stmt_finalize := Ok tt;
     db_close := Ok tt |}.

Definition with_verifyOtp (f : string -> JsValue -> Result bool) (w : World) : World :=
  {| HAT_ID := HAT_ID w; BigInt := BigInt w;
     SEMAPHORE_ADDRESS := SEMAPHORE_ADDRESS w;
     safeParse := safeParse w; sendOtp := sendOtp w; verifyOtp := f;
     mintHat := mintHat w; encodeAbiParameters := encodeAbiParameters w;
     simulateContract := simulateContract w; writeContract := writeContract w;
     getDb := getDb w; db_prepare := db_prepare w; stmt_run := stmt_run w;
     stmt_finalize := stmt_finalize w; db_close := db_close w |}.

Definition with_mintHat (f : Z -> string -> Result MintRes) (w : World) : World :=
  {| HAT_ID := HAT_ID w; BigInt := BigInt w;
     SEMAPHORE_ADDRESS := SEMAPHORE_ADDRESS w;
     safeParse := safeParse w; sendOtp := sendOtp w; verifyOtp := verifyOtp w;
     mintHat := f; encodeAbiParameters := encodeAbiParameters w;
     simulateContract := simulateContract w; writeContract := writeContract w;
     getDb := getDb w; db_prepare := db_prepare w; stmt_run := stmt_run w;
     stmt_finalize := stmt_finalize w; db_close := db_close w |}.

Definition with_writeContract (f : string -> Result string) (w : World) : World :=
  {| HAT_ID := HAT_ID w; BigInt := BigInt w;
     SEMAPHORE_ADDRESS := SEMAPHORE_ADDRESS w;
     safeParse := safeParse w; sendOtp := sendOtp w; verifyOtp := verifyOtp w;
     mintHat := mintHat w; encodeAbiParameters := encodeAbiParameters w;
     simulateContract := simulateContract w; writeContract := f;
     getDb := getDb w; db_prepare := db_prepare w; stmt_run := stmt_run w;
     stmt_finalize := stmt_finalize w; db_close := db_close w |}.

Definition with_stmt_run (f : string -> string -> Result unit) (w : World) : World :=
  {| HAT_ID := HAT_ID w; BigInt := BigInt w;
     SEMAPHORE_ADDRESS := SEMAPHORE_ADDRESS w;
     safeParse := safeParse w; sendOtp := sendOtp w; verifyOtp := verifyOtp w;
     mintHat := mintHat w; encodeAbiParameters := encodeAbiParameters w;
     simulateContract := simulateContract w; writeContract := writeContract w;
     getDb := getDb w; db_prepare := db_prepare w; stmt_run := f;
     stmt_finalize := stmt_finalize w; db_close := db_close w |}.

Definition with_sendOtp (f : string -> Result unit) (w : World) : World :=
  {| HAT_ID := HAT_ID w; BigInt := BigInt w;
     SEMAPHORE_ADDRESS := SEMAPHORE_ADDRESS w;
     safeParse := safeParse w; sendOtp := f; verifyOtp := verifyOtp w;
     mintHat := mintHat w; encodeAbiParameters := encodeAbiParameters w;
     simulateContract := simulateContract w; writeContract := writeContract w;
     getDb := getDb w; db_prepare := db_prepare w; stmt_run := stmt_run w;
     stmt_finalize := stmt_finalize w; db_close := db_close w |}.

Definition with_db_close (r : Result unit) (w : World) : World :=
  {| HAT_ID := HAT_ID w; BigInt := BigInt w;
     SEMAPHORE_ADDRESS := SEMAPHORE_ADDRESS w;
     safeParse := safeParse w; sendOtp := sendOtp w; verifyOtp := verifyOtp w;
     mintHat := mintHat w; encodeAbiParameters := encodeAbiParameters w;
     simulateContract := simulateContract w; writeContract := writeContract w;
     getDb := getDb w; db_prepare := db_prepare w; stmt_run := stmt_run w;
     stmt_finalize := stmt_finalize w; db_close := r |}.

Definition with_HAT_ID (v : JsValue) (w : World) : World :=
  {| HAT_ID := v; BigInt := BigInt w;
     SEMAPHORE_ADDRESS := SEMAPHORE_ADDRESS w;
     safeParse := safeParse w; sendOtp := sendOtp w; verifyOtp := verifyOtp w;
     mintHat := mintHat w; encodeAbiParameters := encodeAbiParameters w;
     simulateContract := simulateContract w; writeContract := writeContract w;
     getDb := getDb w; db_prepare := db_prepare w; stmt_run := stmt_run w;
     stmt_finalize := stmt_finalize w; db_close := db_close w |}.

(** The mint transaction is mined and reverts: the call returns, with the
    status "reverted". *)
Definition reverted_mint : World :=
  with_mintHat (fun _ _ => Ok {| mint_status := JString "reverted";
                                 transactionHash := "0xT1" |}) happy.

(** The hat id constant is not set. *)
Definition unset_hat_id : World := with_HAT_ID JUndefined happy.

(** The OTP store cannot be read. *)
Definition otp_store_down : World :=
  with_verifyOtp (fun _ _ => Throw (SqliteError "SQLITE_BUSY" "database is locked"))
    happy.

(** Everything succeeds but the close of the database. *)
Definition close_fails : World :=
  with_db_close (Throw (SqliteError "SQLITE_MISUSE" "Database handle is closed")) happy.

(** The row insert hits the uniqueness constraint on [email]. *)
Definition already_registered : World :=
  with_stmt_run
    (fun _ _ => Throw (SqliteError "SQLITE_CONSTRAINT"
                         "UNIQUE constraint failed: accounts.email"))
    happy.

(** The row insert fails for a reason unrelated to the row. *)
Definition disk_failure : World :=
  with_stmt_run (fun _ _ => Throw (SqliteError "SQLITE_IOERR" "disk I/O error")) happy.

(** The mail transport refuses the connection. *)
Definition smtp_down : World :=
  with_sendOtp (fun _ => Throw (Error "connect ECONNREFUSED 10.0.0.5:587")) happy.

(** ** The OTP store *)

Module OtpStore.

(** Modelled from the spec: [./otp] (the module behind [sendOtp] and
    [verifyOtp]) is not part of the sources at hand. The record, [issue]
    and [verify] follow the data model and the description of the OTP
    store operations; the clock reading and the generated code are
    arguments. *)
Record OtpRecord : Type := mkOtpRecord {
  email : string;
  code : string;
  issuedAt : Z;
  expiresAt : Z;
  consumed : bool
}.

Definition mark_consumed (r : OtpRecord) : OtpRecord :=
  {| email := email r; code := code r; issuedAt := issuedAt r;
     expiresAt := expiresAt r; consumed := true |}.

(** Modelled from the spec: [issue(email)] computes
    [expiresAt = now + TTL] and stores or overwrites the record of
    [email]. *)
Definition issue (TTL now : Z) (e c : string)
    (store : gmap string OtpRecord) : gmap string OtpRecord :=
  <[e := {| email := e; code := c; issuedAt := now;
            expiresAt := (now + TTL)%Z; consumed := false |}]> store.

(** Modelled from the spec: [verify(email, code)] returns false when no
    record exists for [email], when the stored code differs from the
    submitted one, when [now > expiresAt], or when the record is already
    consumed; otherwise it marks the record consumed and returns true. *)
Definition verify (now : Z) (e c : string)
    (store : gmap string OtpRecord) : gmap string OtpRecord * bool :=
  match store !! e with
  | None => (store, false)
  | Some r =>
      if negb (String.eqb (code r) c) then (store, false)
      else if (expiresAt r <? now)%Z then (store, false)
      else if consumed r then (store, false)
      else (<[e := mark_consumed r]> store, true)
  end.

(** The record of [e] exists and is marked consumed. *)
Definition is_consumed (e : string) (store : gmap string OtpRecord) : Prop :=
  exists r, store !! e = Some r /\ consumed r = true.

(** One [verify] call of a sequence: clock reading, email, code. *)
Record Call : Type := mkCall {
  call_now : Z;
  call_email : string;
  call_code : string
}.

(** A sequence of [verify] calls, run in order: the final store and the
    result of each call. *)
Fixpoint verify_all (calls : list Call) (store : gmap string OtpRecord)
    : gmap string OtpRecord * list bool :=
  match calls with
  | [] => (store, [])
  | c :: rest =>
      let '(store', b) := verify (call_now c) (call_email c) (call_code c) store in
      let '(store'', bs) := verify_all rest store' in
      (store'', b :: bs)
  end.

(** How many calls of the sequence were for email [e] and returned true. *)
Fixpoint successes (e : string) (calls : list Call) (results : list bool) : nat :=
  match calls, results with
  | c :: calls', b :: results' =>
      (if String.eqb (call_email c) e && b then 1 else 0)%nat
      + successes e calls' results'
  | _, _ => 0%nat
  end.

(** A store holding one fresh code for alice, issued at time 1000 with a
    five-minute lifetime. *)
Definition sample_store : gmap string OtpRecord :=
  issue 300000 1000 "alice@pse.dev" "4821" ∅.

End OtpStore.

(** ** The sign-up pages *)

(** The two React components that call the backend: the sign-up page
    ([registerEmail], [verifyOtp], [generateEmbeddedAccount]) and the
    register-email form ([registerEmail] with its spinner and toasts). *)
Module Frontend.

(** JSON values as [response.json()] yields them; [JsonUndefined] is what
    reading a missing property gives. *)
Inductive Json : Type :=
  | JsonUndefined
  | JsonNull
  | JsonBool (b : bool)
  | JsonNumber (n : Z)
  | JsonString (s : string)
  | JsonArray (items : list Json)
  | JsonObject (fields : list (string * Json)).

Definition json_truthy (v : Json) : bool :=
  match v with
  | JsonUndefined | JsonNull => false
  | JsonBool b => b
  | JsonNumber n => negb (n =? 0)%Z
  | JsonString s => negb (String.eqb s "")
  | JsonArray _ | JsonObject _ => true
  end.

(** What [??] falls through on. *)
Definition nullish (v : Json) : bool :=
  match v with
  | JsonUndefined | JsonNull => true
  | _ => false
  end.

(** The value bound to [k] in an object; the last binding of a repeated
    key wins, as in [JSON.parse]. *)
Fixpoint lookup_field (k : string) (fields : list (string * Json)) : Json :=
  match fields with
  | [] => JsonUndefined
  | (k', v) :: rest =>
      match lookup_field k rest with
      | JsonUndefined => if String.eqb k' k then v else JsonUndefined
      | found => found
      end
  end.

(** [v.k] for a property name no prototype defines ([errors],
    [message]): a [TypeError] on [null] and [undefined], the bound value on
    an object, [undefined] on anything else. *)
Definition get_field (v : Json) (k : string) : Result Json :=
  match v with
  | JsonUndefined =>
      Throw (TypeError ("Cannot read properties of undefined (reading '" ++ k ++ "')"))
  | JsonNull =>
      Throw (TypeError ("Cannot read properties of null (reading '" ++ k ++ "')"))
  | JsonObject fields => Ok (lookup_field k fields)
  | _ => Ok JsonUndefined
  end.

(** [v[0]] *)
Definition first_element (v : Json) : Result Json :=
  match v with
  | JsonUndefined =>
      Throw (TypeError "Cannot read properties of undefined (reading '0')")
  | JsonNull =>
      Throw (TypeError "Cannot read properties of null (reading '0')")
  | JsonArray items =>
      Ok (match items with
          | x :: _ => x
          | [] => JsonUndefined
          end)
  | JsonString s =>
      Ok (match s with
          | String c _ => JsonString (String c "")
          | EmptyString => JsonUndefined
          end)
  | JsonObject fields => Ok (lookup_field "0" fields)
  | _ => Ok JsonUndefined
  end.

(** [(json.errors && json.errors[0]) ?? json.message] *)
Definition toast_text (json : Json) : Result Json :=
  match get_field json "errors" with
  | Throw e => Throw e
  | Ok errors =>
      match (if json_truthy errors then first_element errors else Ok errors) with
      | Throw e => Throw e
      | Ok lhs => if nullish lhs then get_field json "message" else Ok lhs
      end
  end.

Record EmailField : Type := mkEmailField { email : string }.

Record OtpField : Type := mkOtpField { otp : JsValue }.

(** What is passed to [JSON.stringify] for the request body. *)
Inductive FetchBody : Type :=
  | SendOtpBody (emailField : EmailField)
  | VerifyOtpBody (email : string) (otp : JsValue)
      (address identityCommitment : string).

(** A fetch [Response]: [ok], [status] and the completion of [json()]. *)
Record FetchResponse : Type := mkFetchResponse {
  res_ok : bool;
  res_status : Z;
  res_json : Result Json
}.

Record KernelAccount : Type := mkKernelAccount { address : string }.

(** A Semaphore identity, through the two renderings the page reads:
    [privateKey.toString()] and [commitment.toString()]. *)
Record Identity : Type := mkIdentity {
  privateKey_text : string;
  commitment_text : string
}.

Record KeyPair : Type := mkKeyPair {
  privateKey : string;
  publicKey : string
}.

(** Everything the components import and do not define. *)
Record Browser : Type := mkBrowser {
  backendUrl : string;
  origin : string;
  fetch : string -> FetchBody -> Result FetchResponse;
  generatePrivateKey : string;
  privateKeyToAccount : string -> Result string;
  signerToEcdsaKernelSmartAccount : string -> Result KernelAccount;
  signMessage : KernelAccount -> string -> Result string;
  newIdentity : string -> Result Identity;
  BigInt : string -> Result Z;
  genKeyPair : Z -> Result KeyPair
}.

Inductive LogArg : Type :=
  | LogText (s : string)
  | LogStatus (n : Z)
  | LogValue (v : JsValue)
  | LogJson (j : Json)
  | LogExn (e : Exn).

(** What the user, the console and the network see, in order. *)
Inductive UiEvent : Type :=
  | ConsoleLog (args : list LogArg)
  | ConsoleError (args : list LogArg)
  | ToastError (text : Json)
  | ToastSuccess (text : string)
  | Fetch (url : string) (body : FetchBody)
  | RouterPush (path : string).

(** The state the components read and write: the [registering] flag, the
    [emailField] state, the browser's [localStorage] and the events so
    far. *)
Record Ui : Type := mkUi {
  registering : bool;
  emailField : option EmailField;
  localStorage : gmap string string;
  events : list UiEvent
}.

Definition F (A : Type) : Type := Ui -> Ui * Result A.

Definition F_ret {A} (a : A) : F A := fun ui => (ui, Ok a).

Definition F_bind {A B} (m : F A) (k : A -> F B) : F B :=
  fun ui =>
    match m ui with
    | (ui', Ok a) => k a ui'
    | (ui', Throw e) => (ui', Throw e)
    end.

Definition F_try_catch {A} (body : F A) (handler : Exn -> F A) : F A :=
  fun ui =>
    match body ui with
    | (ui', Ok a) => (ui', Ok a)
    | (ui', Throw e) => handler e ui'
    end.

#[global] Instance F_mret : MRet F := @F_ret.
#[global] Instance F_mbind : MBind F := fun A B k m => F_bind m k.

Definition await {A} (r : Result A) : F A := fun ui => (ui, r).

Definition emit (ev : UiEvent) : F unit :=
  fun ui =>
    ({| registering := registering ui; emailField := emailField ui;
        localStorage := localStorage ui;
        events := (events ui ++ [ev])%list |}, Ok tt).

Definition setRegistering (b : bool) : F unit :=
  fun ui =>
    ({| registering := b; emailField := emailField ui;
        localStorage := localStorage ui; events := events ui |}, Ok tt).

Definition setEmail (f : EmailField) : F unit :=
  fun ui =>
    ({| registering := registering ui; emailField := Some f;
        localStorage := localStorage ui; events := events ui |}, Ok tt).

(** [localStorage.setItem(k, v)] *)
Definition setItem (k v : string) : F unit :=
  fun ui =>
    ({| registering := registering ui; emailField := emailField ui;
        localStorage := <[k := v]> (localStorage ui);
        events := events ui |}, Ok tt).

(** [emailField!] followed by a destructuring: a [TypeError] when the
    state is still undefined. *)
Definition read_emailField : F EmailField :=
  fun ui =>
    match emailField ui with
    | Some f => (ui, Ok f)
    | None =>
        (ui, Throw (TypeError
           "Cannot destructure property 'email' of 'emailField' as it is undefined."))
    end.

Section Components.
Variable b : Browser.

(** [await fetch(url, { method: "POST", body: JSON.stringify(body) })] *)
Definition post (url : string) (body : FetchBody) : F FetchResponse :=
  emit (Fetch url body) ;; await (fetch b url body).

(** *** The register-email form *)

Definition form_registerEmail (emailField : EmailField) : F unit :=
  F_try_catch
    (setRegistering true ;;
     response ← post (backendUrl b ++ "/send-otp") (SendOtpBody emailField);
     json ← await (res_json response);
     (if negb (res_ok response) then
        emit (ConsoleLog [LogStatus (res_status response)]) ;;
        emit (ConsoleError [LogJson json]) ;;
        text ← await (toast_text json);
        emit (ToastError text)
      else
        setEmail emailField ;;
        emit (ToastSuccess ("OTP has been sent to " ++ email emailField))) ;;
     setRegistering false)
    (fun error =>
       setRegistering false ;;
       emit (ConsoleError [LogExn error]) ;;
       emit (ToastError
               (JsonString "An unexpected error occured registering your email"))).

(** *** The sign-up page *)

Definition registerEmail (emailField : EmailField) : F unit :=
  F_try_catch
    (response ← post "http://localhost:3001/send-otp" (SendOtpBody emailField);
     if negb (res_ok response) then
       emit (ConsoleLog [LogStatus (res_status response)]) ;;
       json ← await (res_json response);
       emit (ConsoleLog [LogJson json])
     else
       setEmail emailField ;;
       emit (ConsoleLog [LogText "OTP has been sent to ";
                         LogText (email emailField)]))
    (fun error => emit (ConsoleError [LogExn error])).

Definition generateEmbeddedAccount : F KernelAccount :=
  emit (ConsoleLog [LogText "Generating new account"]) ;;
  signer ← await (privateKeyToAccount b (generatePrivateKey b));
  kernelAccount ← await (signerToEcdsaKernelSmartAccount b signer);
  setItem "ecdsaPrivKey" (generatePrivateKey b) ;;
  setItem "accountAddress" (address kernelAccount) ;;
  F_ret kernelAccount.

Definition verifyOtp (otpField : OtpField) : F unit :=
  emit (ConsoleLog [LogText "Verifying OTP: "; LogValue (otp otpField)]) ;;
  account ← generateEmbeddedAccount;
  field ← read_emailField;
  signature ← await (signMessage b account
                       ("Generate your EdDSA Key Pair at " ++ origin b));
  newSemaphoreIdentity ← await (newIdentity b signature);
  seed ← await (BigInt b signature);
  userKeyPair ← await (genKeyPair b seed);
  setItem "maciPrivKey" (privateKey userKeyPair) ;;
  setItem "maciPubKey" (publicKey userKeyPair) ;;
  setItem "semaphoreIdentity" (privateKey_text newSemaphoreIdentity) ;;
  F_try_catch
    (response ← post "http://localhost:3001/verify-otp"
                  (VerifyOtpBody (email field) (otp otpField) (address account)
                     (commitment_text newSemaphoreIdentity));
     if negb (res_ok response) then
       emit (ConsoleLog [LogStatus (res_status response)]) ;;
       json ← await (res_json response);
       emit (ConsoleLog [LogJson json])
     else
       emit (RouterPush "/signup"))
    (fun error => emit (ConsoleError [LogExn error])).

End Components.

(** The keys the sign-up page writes to [localStorage]. *)
Definition page_keys : list string :=
  ["ecdsaPrivKey"; "accountAddress"; "maciPrivKey"; "maciPubKey";
   "semaphoreIdentity"].

(** The requests sent, in order. *)
Definition requests (evs : list UiEvent) : list (string * FetchBody) :=
  omap (fun ev => match ev with
                  | Fetch url body => Some (url, body)
                  | _ => None
                  end) evs.

Definition is_toast (ev : UiEvent) : bool :=
  match ev with
  | ToastError _ | ToastSuccess _ => true
  | _ => false
  end.

(** The toasts shown, in order. *)
Definition toasts (evs : list UiEvent) : list UiEvent :=
  List.filter is_toast evs.

Definition pushes (evs : list UiEvent) : list string :=
  omap (fun ev => match ev with
                  | RouterPush path => Some path
                  | _ => None
                  end) evs.

Definition start : Ui :=
  {| registering := false; emailField := None; localStorage := ∅; events := [] |}.

(** The form's request is accepted: [fetch] returned, the body parsed, and
    the response is [ok]. *)
Definition form_accepted (b : Browser) (f : EmailField) : bool :=
  match fetch b (backendUrl b ++ "/send-otp") (SendOtpBody f) with
  | Ok response =>
      match res_json response with
      | Ok _ => res_ok response
      | Throw _ => false
      end
  | Throw _ => false
  end.

(** The page's OTP request is accepted: [fetch] returned and the response
    is [ok]. *)
Definition page_accepted (b : Browser) (f : EmailField) : bool :=
  match fetch b "http://localhost:3001/send-otp" (SendOtpBody f) with
  | Ok response => res_ok response
  | Throw _ => false
  end.

(** The body [res.json(r)] puts on the wire, read back by [response.json()].
    How an exception object serialises is left to [serialize]. *)
Definition body_of_response (serialize : Exn -> Json) (r : Response) : Json :=
  JsonObject
    ([("message", JsonString (message r))]
     ++ match error r with
        | Some e => [("error", serialize e)]
        | None => []
        end
     ++ match errors r with
        | Some es => [("errors", JsonArray (map JsonString es))]
        | None => []
        end)%list.

(** The backend's [/send-otp] as [fetch] sees it: the response the handler
    wrote, [ok] for a status from 200 to 299. A request that gets no
    response is a failed fetch. *)
Definition serve_send_otp (serialize : Exn -> Json) (w : World) (f : EmailField)
    : Result FetchResponse :=
  match sent (fst (send_otp_handler w (JString (email f)) init)) with
  | r :: _ =>
      Ok {| res_ok := (200 <=? status r)%Z && (status r <=? 299)%Z;
            res_status := status r;
            res_json := Ok (body_of_response serialize r) |}
  | [] => Throw (TypeError "Failed to fetch")
  end.

(** A browser in front of the backend world [w]. *)
Definition browser_of (w : World) : Browser :=
  {| backendUrl := "http://localhost:3001";
     origin := "http://localhost:3000";
     fetch := fun url body =>
       match body with
       | SendOtpBody f => serve_send_otp (fun _ => JsonObject []) w f
       | VerifyOtpBody _ _ _ _ =>
           Ok {| res_ok := false; res_status := 400;
                 res_json := Ok (JsonObject
                   [("message", JsonString "Invalid or expired OTP")]) |}
       end;
     generatePrivateKey := "0xKEY";
     privateKeyToAccount := fun k => Ok ("signer:" ++ k);
     signerToEcdsaKernelSmartAccount := fun _ => Ok {| address := "0xACC" |};
     signMessage := fun _ _ => Ok "0x51";
     newIdentity := fun _ => Ok {| privateKey_text := "1234"; commitment_text := "5678" |};
     BigInt := fun _ => Ok 81%Z;
     genKeyPair := fun _ => Ok {| privateKey := "macisk.1"; publicKey := "macipk.1" |} |}.

End Frontend.

(** ** Responses on the wire *)

(** The primary result codes of SQLite, by name. *)
Definition sqlite_result_codes : list (string * Z) :=
  [("SQLITE_ERROR", 1); ("SQLITE_INTERNAL", 2); ("SQLITE_PERM", 3);
   ("SQLITE_ABORT", 4); ("SQLITE_BUSY", 5); ("SQLITE_LOCKED", 6);
   ("SQLITE_NOMEM", 7); ("SQLITE_READONLY", 8); ("SQLITE_INTERRUPT", 9);
   ("SQLITE_IOERR", 10); ("SQLITE_CORRUPT", 11); ("SQLITE_NOTFOUND", 12);
   ("SQLITE_FULL", 13); ("SQLITE_CANTOPEN", 14); ("SQLITE_PROTOCOL", 15);
   ("SQLITE_EMPTY", 16); ("SQLITE_SCHEMA", 17); ("SQLITE_TOOBIG", 18);
   ("SQLITE_CONSTRAINT", 19); ("SQLITE_MISMATCH", 20); ("SQLITE_MISUSE", 21);
   ("SQLITE_NOLFS", 22); ("SQLITE_AUTH", 23); ("SQLITE_FORMAT", 24);
   ("SQLITE_RANGE", 25); ("SQLITE_NOTADB", 26)]%Z.

(** The [errno] that goes with a [code]; 0 for a string that names no
    result code. *)
Definition sqlite_errno (code : string) : Z :=
  match List.find (fun entry => String.eqb (fst entry) code) sqlite_result_codes with
  | Some entry => snd entry
  | None => 0%Z
  end.

(** What [JSON.stringify] keeps of an exception object: its own enumerable
    properties. [message] and [stack] are not enumerable, so a plain error
    serialises to the empty object; a database error carries [errno] and
    [code]. *)
Definition wire_error (e : Exn) : Frontend.Json :=
  match e with
  | Error _ | TypeError _ => Frontend.JsonObject []
  | SqliteError code _ =>
      Frontend.JsonObject
        [("errno", Frontend.JsonNumber (sqlite_errno code));
         ("code", Frontend.JsonString code)]
  end.

(** The body of a response as the caller receives it. *)
Definition wire_body (r : Response) : Frontend.Json :=
  Frontend.body_of_response wire_error r.

(** [body.error.code], as a caller would read it. *)
Definition error_code (body : Frontend.Json) : Frontend.Json :=
  match body with
  | Frontend.JsonObject fields =>
      match Frontend.lookup_field "error" fields with
      | Frontend.JsonObject error_fields =>
          Frontend.lookup_field "code" error_fields
      | _ => Frontend.JsonUndefined
      end
  | _ => Frontend.JsonUndefined
  end.

(** The exception is a constraint violation of the database: the one the
    uniqueness constraint on [email] raises. *)
Definition is_constraint_violation (e : Exn) : bool :=
  match e with
  | SqliteError code _ => String.eqb code "SQLITE_CONSTRAINT"
  | _ => false
  end.

(** The mint result reports a reverted transaction. *)
Definition reverted (r : MintRes) : bool :=
  match mint_status r with
  | JString s => String.eqb s "reverted"
  | _ => false
  end.

(** ** Scenario checks *)

(** Scenario A: every collaborator succeeds. *)
Example scenario_all_succeed :
  verify_otp_handler happy JObject init =
  ({| trace := [EvVerifyOtp "alice@pse.dev" (JNumber 4821);
                EvMintHat 7 "0xABC";
                EvSimulateContract "0x5E" "gateAndAddMember" "0x123" "0x07";
                EvWriteContract "request";
                EvGetDb; EvPrepare insert_sql; EvRun "alice@pse.dev" "0xABC";
                EvFinalize; EvClose];
      sent := [Recorded] |}, Ok Returned).
Proof. reflexivity. Qed.

(** A status carried as a non-empty string is truthy whatever it spells:
    the handler tests [!mintRes.status], so only a falsy status stops it. *)
Example string_status_is_truthy :
  sent (fst (verify_otp_handler
               (with_mintHat (fun _ _ => Ok {| mint_status := JString "reverted";
                                               transactionHash := "0xT1" |}) happy)
               JObject init)) = [Recorded].
Proof. reflexivity. Qed.

(** ** Running the handlers *)

Ltac unfold_handler :=
  unfold verify_otp_handler, send_otp_handler, mint_step, semaphore_step,
    store_step, try_catch, try_finally, mbind, M_bind, bind, call, lift,
    respond, ret, throw.

(** Case analysis on the completion of every collaborator the handler
    reaches, in flow order. *)
Ltac each_path w :=
  unfold all_checks_pass, failing_step, mint_failed, admission_failed,
    ledger_failure, hatId;
  unfold_handler;
  repeat match goal with
    | |- context [match safeParse w ?b with _ => _ end] =>
        destruct (safeParse w b) as [? | ?] eqn:?; simpl
    | |- context [match verifyOtp w ?a ?b with _ => _ end] =>
        destruct (verifyOtp w a b) as [[|] | ?] eqn:?; simpl
    | |- context [match BigInt w ?a with _ => _ end] =>
        destruct (BigInt w a) as [? | ?] eqn:?; simpl
    | |- context [match mintHat w ?a ?b with _ => _ end] =>
        destruct (mintHat w a b) as [? | ?] eqn:?; simpl
    | |- context [truthy (mint_status ?m)] =>
        destruct (truthy (mint_status m)) eqn:?; simpl
    | |- context [match encodeAbiParameters w ?a with _ => _ end] =>
        destruct (encodeAbiParameters w a) as [? | ?] eqn:?; simpl
    | |- context [match simulateContract w ?a ?b ?c ?d with _ => _ end] =>
        destruct (simulateContract w a b c d) as [? | ?] eqn:?; simpl
    | |- context [match writeContract w ?a with _ => _ end] =>
        destruct (writeContract w a) as [? | ?] eqn:?; simpl
    | |- context [match getDb w with _ => _ end] =>
        destruct (getDb w) as [[] | ?] eqn:?; simpl
    | |- context [match db_prepare w ?a with _ => _ end] =>
        destruct (db_prepare w a) as [[] | ?] eqn:?; simpl
    | |- context [match stmt_run w ?a ?b with _ => _ end] =>
        destruct (stmt_run w a b) as [[] | ?] eqn:?; simpl
    | |- context [match stmt_finalize w with _ => _ end] =>
        destruct (stmt_finalize w) as [[] | ?] eqn:?; simpl
    | |- context [match db_close w with _ => _ end] =>
        destruct (db_close w) as [[] | ?] eqn:?; simpl
    end.

Lemma run_otp_false (w : World) (body : JsValue) (data : VerifyOtpData) :
  safeParse w body = ParseSuccess data ->
  verifyOtp w (email data) (otp data) = Ok false ->
  verify_otp_handler w body init =
    ({| trace := [EvVerifyOtp (email data) (otp data)];
        sent := [OtpRejected] |}, Ok Returned).
Proof.
  intros Hparse Hotp. unfold_handler. rewrite Hparse, Hotp. reflexivity.
Qed.

Lemma run_otp_throw (w : World) (body : JsValue) (data : VerifyOtpData) (e : Exn) :
  safeParse w body = ParseSuccess data ->
  verifyOtp w (email data) (otp data) = Throw e ->
  verify_otp_handler w body init =
    ({| trace := [EvVerifyOtp (email data) (otp data)]; sent := [] |}, Throw e).
Proof.
  intros Hparse Hotp. unfold_handler. rewrite Hparse, Hotp. reflexivity.
Qed.

Lemma run_mint_failed (w : World) (body : JsValue) (data : VerifyOtpData) :
  safeParse w body = ParseSuccess data ->
  verifyOtp w (email data) (otp data) = Ok true ->
  mint_failed w data = true ->
  verify_otp_handler w body init =
    ({| trace := EvVerifyOtp (email data) (otp data)
                 :: match BigInt w (HAT_ID w) with
                    | Ok hat => [EvMintHat hat (address data)]
                    | Throw _ => []
                    end;
        sent := [CredentialMintFailed] |}, Ok Returned).
Proof.
  intros Hparse Hotp. unfold mint_failed. unfold_handler.
  rewrite Hparse, Hotp. simpl.
  destruct (BigInt w (HAT_ID w)) as [hat | err]; simpl; [| reflexivity].
  destruct (mintHat w hat (address data)) as [mintRes | err]; simpl;
    [| reflexivity].
  intros ->. reflexivity.
Qed.

Lemma run_admission_failed (w : World) (body : JsValue) (data : VerifyOtpData)
    (data' : string) :
  safeParse w body = ParseSuccess data ->
  verifyOtp w (email data) (otp data) = Ok true ->
  mint_failed w data = false ->
  encodeAbiParameters w (hatId w) = Ok data' ->
  admission_failed w data data' = true ->
  sent (fst (verify_otp_handler w body init)) = [GroupAdmissionFailed]
  /\ snd (verify_otp_handler w body init) = Ok Returned
  /\ never is_ledger (trace (fst (verify_otp_handler w body init))) = true.
Proof.
  intros Hparse Hotp Hmint Henc Hadm.
  unfold mint_failed in Hmint. unfold admission_failed in Hadm.
  unfold hatId in Henc. unfold_handler. rewrite Hparse, Hotp. simpl.
  destruct (BigInt w (HAT_ID w)) as [hat | err]; [| discriminate]. simpl.
  destruct (mintHat w hat (address data)) as [mintRes | err]; [| discriminate].
  simpl. rewrite Hmint. simpl. rewrite Henc. simpl.
  destruct (simulateContract w (SEMAPHORE_ADDRESS w) "gateAndAddMember"
              (identityCommitment data) data') as [request | err]; [| done].
  simpl. destruct (writeContract w request) as [hash | err]; done.
Qed.

(** ** The OTP gate *)

(** C2. When the parsed request's OTP verification returns false, the
    handler answers [OtpRejected] (400, "Invalid or expired OTP") and
    returns; the only collaborator call of the whole invocation is
    [verifyOtp]: the credential issuer, the group admission client and the
    ledger are never called. *)
Theorem otp_rejected_stops (w : World) (body : JsValue) (data : VerifyOtpData) :
  safeParse w body = ParseSuccess data ->
  verifyOtp w (email data) (otp data) = Ok false ->
  verify_otp_handler w body init =
    ({| trace := [EvVerifyOtp (email data) (otp data)];
        sent := [OtpRejected] |}, Ok Returned)
  /\ never is_credential_issuer (trace (fst (verify_otp_handler w body init))) = true
  /\ never is_group_admission (trace (fst (verify_otp_handler w body init))) = true
  /\ never is_ledger (trace (fst (verify_otp_handler w body init))) = true.
Proof.
  intros Hparse Hotp.
  rewrite (run_otp_false w body data Hparse Hotp). repeat split; reflexivity.
Qed.

Lemma otp_rejected_stops_witness :
  verify_otp_handler (with_verifyOtp (fun _ _ => Ok false) happy) JObject init =
    ({| trace := [EvVerifyOtp "alice@pse.dev" (JNumber 4821)];
        sent := [OtpRejected] |}, Ok Returned).
Proof.
  exact (proj1 (otp_rejected_stops (with_verifyOtp (fun _ _ => Ok false) happy)
                  JObject alice eq_refl eq_refl)).
Defined.

(** C7. When [verifyOtp] itself fails (the store raised instead of
    answering), the handler does not catch: the exception leaves the handler
    as it was raised, no response is written and no later step runs. That
    completion differs from the one of a false validation result, which is a
    normal return after the [OtpRejected] response. *)
Theorem otp_store_error_is_not_rejection
    (w w' : World) (body body' : JsValue) (data data' : VerifyOtpData) (e : Exn) :
  safeParse w body = ParseSuccess data ->
  verifyOtp w (email data) (otp data) = Throw e ->
  safeParse w' body' = ParseSuccess data' ->
  verifyOtp w' (email data') (otp data') = Ok false ->
  verify_otp_handler w body init =
    ({| trace := [EvVerifyOtp (email data) (otp data)]; sent := [] |}, Throw e)
  /\ snd (verify_otp_handler w body init) <> snd (verify_otp_handler w' body' init)
  /\ sent (fst (verify_otp_handler w body init))
     <> sent (fst (verify_otp_handler w' body' init)).
Proof.
  intros Hparse Hthrow Hparse' Hfalse.
  rewrite (run_otp_throw w body data e Hparse Hthrow).
  rewrite (run_otp_false w' body' data' Hparse' Hfalse).
  simpl. repeat split; discriminate.
Qed.

Lemma otp_store_error_is_not_rejection_witness :
  verify_otp_handler
    (with_verifyOtp (fun _ _ => Throw (SqliteError "SQLITE_BUSY" "database is locked")) happy)
    JObject init =
    ({| trace := [EvVerifyOtp "alice@pse.dev" (JNumber 4821)]; sent := [] |},
     Throw (SqliteError "SQLITE_BUSY" "database is locked")).
Proof.
  exact (proj1 (otp_store_error_is_not_rejection
    (with_verifyOtp (fun _ _ => Throw (SqliteError "SQLITE_BUSY" "database is locked")) happy)
    (with_verifyOtp (fun _ _ => Ok false) happy)
    JObject JObject alice alice _ eq_refl eq_refl eq_refl eq_refl)).
Defined.

(** ** The credential mint gate *)

(** C1. The code does not do what the claim and the comment above the test
    ("we want to throw an error if the minting failed") say. When the OTP
    verifies and [mintHat] returns a result whose status is the string
    "reverted", the test [!mintRes.status] does not fire: no
    [CredentialMintFailed] is answered, the group admission client is called
    with the encoded hat id, and when the remaining steps succeed the row is
    inserted and the success response is written. *)
Theorem reverted_mint_is_not_stopped
    (w : World) (body : JsValue) (data : VerifyOtpData) (hat : Z) (r : MintRes) :
  safeParse w body = ParseSuccess data ->
  verifyOtp w (email data) (otp data) = Ok true ->
  BigInt w (HAT_ID w) = Ok hat ->
  mintHat w hat (address data) = Ok r ->
  reverted r = true ->
  mint_failed w data = false
  /\ (CredentialMintFailed ∉ sent (fst (verify_otp_handler w body init)))
  /\ (forall data',
        encodeAbiParameters w hat = Ok data' ->
        EvSimulateContract (SEMAPHORE_ADDRESS w) "gateAndAddMember"
          (identityCommitment data) data'
        ∈ trace (fst (verify_otp_handler w body init)))
  /\ (all_checks_pass w data = true ->
      sent (fst (verify_otp_handler w body init)) = [Recorded]
      /\ EvRun (email data) (address data)
         ∈ trace (fst (verify_otp_handler w body init))).
Proof.
  intros Hparse Hotp Hbig Hmint Hrev.
  assert (Htruthy : truthy (mint_status r) = true).
  { unfold reverted in Hrev. destruct (mint_status r) as [| | | | | s |];
      try discriminate Hrev.
    apply String.eqb_eq in Hrev. subst s. reflexivity. }
  unfold all_checks_pass, mint_failed, admission_failed, ledger_failure, hatId.
  unfold_handler. rewrite Hparse, Hotp, Hbig. simpl.
  rewrite Hmint. simpl. rewrite Htruthy. simpl.
  split; [reflexivity |]. split; [| split].
  - each_path w; set_solver.
  - intros data' Henc. rewrite Henc. simpl. each_path w; set_solver.
  - each_path w; intros Hall; try discriminate Hall;
      (split; [reflexivity | set_solver]).
Qed.

Lemma reverted_mint_is_not_stopped_witness :
  sent (fst (verify_otp_handler reverted_mint JObject init)) = [Recorded]
  /\ EvRun (email alice) (address alice)
     ∈ trace (fst (verify_otp_handler reverted_mint JObject init)).
Proof.
  exact (proj2 (proj2 (proj2 (reverted_mint_is_not_stopped reverted_mint JObject
           alice 7 {| mint_status := JString "reverted"; transactionHash := "0xT1" |}
           eq_refl eq_refl eq_refl eq_refl eq_refl))) eq_refl).
Defined.

(** X21. What the handler's own test does stop. When the OTP verifies and
    the mint fails as the handler sees it (the conversion of the hat id
    throws, [mintHat] throws, or it returns a result whose status is falsy),
    the handler answers 500 "Failed to mint hat" and returns; [mintHat] was
    called unless the conversion threw, and neither the group admission
    client nor the database is called. *)
Theorem mint_failure_stops (w : World) (body : JsValue) (data : VerifyOtpData) :
  safeParse w body = ParseSuccess data ->
  verifyOtp w (email data) (otp data) = Ok true ->
  mint_failed w data = true ->
  verify_otp_handler w body init =
    ({| trace := EvVerifyOtp (email data) (otp data)
                 :: match BigInt w (HAT_ID w) with
                    | Ok hat => [EvMintHat hat (address data)]
                    | Throw _ => []
                    end;
        sent := [CredentialMintFailed] |}, Ok Returned)
  /\ never is_group_admission (trace (fst (verify_otp_handler w body init))) = true
  /\ never is_ledger (trace (fst (verify_otp_handler w body init))) = true.
Proof.
  intros Hparse Hotp Hmint.
  rewrite (run_mint_failed w body data Hparse Hotp Hmint). simpl.
  destruct (BigInt w (HAT_ID w)); repeat split; reflexivity.
Qed.

Lemma mint_failure_stops_witness :
  verify_otp_handler
    (with_mintHat (fun _ _ => Ok {| mint_status := JBool false; transactionHash := "0xT1" |})
       happy) JObject init =
    ({| trace := [EvVerifyOtp "alice@pse.dev" (JNumber 4821); EvMintHat 7 "0xABC"];
        sent := [CredentialMintFailed] |}, Ok Returned).
Proof.
  exact (proj1 (mint_failure_stops
    (with_mintHat (fun _ _ => Ok {| mint_status := JBool false; transactionHash := "0xT1" |})
       happy) JObject alice eq_refl eq_refl eq_refl)).
Defined.

(** ** The ledger write *)

(** Whenever the row insert is reached, every earlier step has passed the
    handler's checks and has already run, in order. *)
Lemma run_reaches_insert (w : World) (body : JsValue) (e a : string) :
  EvRun e a ∈ trace (fst (verify_otp_handler w body init)) ->
  exists data mintRes data' request hash rest,
    safeParse w body = ParseSuccess data
    /\ e = email data /\ a = address data
    /\ verifyOtp w (email data) (otp data) = Ok true
    /\ BigInt w (HAT_ID w) = Ok (hatId w)
    /\ mintHat w (hatId w) (address data) = Ok mintRes
    /\ truthy (mint_status mintRes) = true
    /\ encodeAbiParameters w (hatId w) = Ok data'
    /\ simulateContract w (SEMAPHORE_ADDRESS w) "gateAndAddMember"
         (identityCommitment data) data' = Ok request
    /\ writeContract w request = Ok hash
    /\ trace (fst (verify_otp_handler w body init)) =
         ([EvVerifyOtp (email data) (otp data);
           EvMintHat (hatId w) (address data);
           EvSimulateContract (SEMAPHORE_ADDRESS w) "gateAndAddMember"
             (identityCommitment data) data';
           EvWriteContract request;
           EvGetDb; EvPrepare insert_sql; EvRun e a] ++ rest)%list.
Proof.
  unfold hatId. unfold_handler.
  destruct (safeParse w body) as [data | issues] eqn:Hparse; simpl;
    [| set_solver].
  destruct (verifyOtp w (email data) (otp data)) as [[|] | err] eqn:Hotp;
    simpl; [| set_solver ..].
  destruct (BigInt w (HAT_ID w)) as [hat | err] eqn:Hbig; simpl;
    [| set_solver].
  destruct (mintHat w hat (address data)) as [mintRes | err] eqn:Hm;
    simpl; [| set_solver].
  destruct (truthy (mint_status mintRes)) eqn:Hst; simpl; [| set_solver].
  destruct (encodeAbiParameters w hat) as [data' | err] eqn:Henc;
    simpl; [| set_solver].
  destruct (simulateContract w (SEMAPHORE_ADDRESS w) "gateAndAddMember"
              (identityCommitment data) data') as [request | err] eqn:Hsim;
    simpl; [| set_solver].
  destruct (writeContract w request) as [hash | err] eqn:Hwr;
    simpl; [| set_solver].
  destruct (getDb w); simpl; [| set_solver].
  intros Hin. exists data, mintRes, data', request, hash.
  assert (e = email data /\ a = address data) as [-> ->].
  { revert Hin.
    destruct (db_prepare w insert_sql); simpl;
      [destruct (stmt_run w (email data) (address data)); simpl;
         [destruct (stmt_finalize w); simpl |] |];
      destruct (db_close w); simpl; set_solver. }
  revert Hin.
  destruct (db_prepare w insert_sql); simpl;
    [destruct (stmt_run w (email data) (address data)); simpl;
       [destruct (stmt_finalize w); simpl |] |];
    destruct (db_close w); simpl; intros Hin;
    try (eexists; repeat split; reflexivity); set_solver.
Qed.

(** C3. The code does not keep the row insert behind a successful mint.
    When every check of the handler passes and the mint result it let
    through has the status "reverted", the row [{email, address}] is inserted
    and the success response is written, although the credential mint did
    not succeed. This is the defect of C1 seen from the ledger. *)
Theorem ledger_written_after_reverted_mint
    (w : World) (body : JsValue) (data : VerifyOtpData) (r : MintRes) :
  safeParse w body = ParseSuccess data ->
  all_checks_pass w data = true ->
  mintHat w (hatId w) (address data) = Ok r ->
  reverted r = true ->
  EvRun (email data) (address data)
    ∈ trace (fst (verify_otp_handler w body init))
  /\ Recorded ∈ sent (fst (verify_otp_handler w body init))
  /\ exists before after,
       trace (fst (verify_otp_handler w body init))
       = (before ++ EvRun (email data) (address data) :: after)%list
       /\ EvMintHat (hatId w) (address data) ∈ before.
Proof.
  intros Hparse Hall Hmint Hrev.
  assert (Hin : EvRun (email data) (address data)
                  ∈ trace (fst (verify_otp_handler w body init))).
  { revert Hall. unfold verify_otp_handler. rewrite Hparse.
    each_path w; intros Hall; try discriminate Hall; set_solver. }
  split; [exact Hin |]. split.
  - revert Hall. unfold verify_otp_handler. rewrite Hparse.
    each_path w; intros Hall; try discriminate Hall; set_solver.
  - destruct (run_reaches_insert w body _ _ Hin)
      as (data0 & mintRes & data' & request & hash & rest & Hp & _ & _ & _
          & _ & _ & _ & _ & _ & _ & Htr).
    rewrite Hparse in Hp. injection Hp as <-.
    exists [EvVerifyOtp (email data) (otp data);
            EvMintHat (hatId w) (address data);
            EvSimulateContract (SEMAPHORE_ADDRESS w) "gateAndAddMember"
              (identityCommitment data) data';
            EvWriteContract request; EvGetDb; EvPrepare insert_sql], rest.
    split; [rewrite Htr; reflexivity | set_solver].
Qed.

Lemma ledger_written_after_reverted_mint_witness :
  EvRun (email alice) (address alice)
    ∈ trace (fst (verify_otp_handler reverted_mint JObject init))
  /\ Recorded ∈ sent (fst (verify_otp_handler reverted_mint JObject init)).
Proof.
  destruct (ledger_written_after_reverted_mint reverted_mint JObject alice
              {| mint_status := JString "reverted"; transactionHash := "0xT1" |}
              eq_refl eq_refl eq_refl eq_refl) as (Hrun & Hrec & _).
  split; [exact Hrun | exact Hrec].
Defined.

(** X20. What does hold of the row insert. It happens only after
    [mintHat] returned a result that passed the handler's status test and
    after [simulateContract] and [writeContract] both returned, their calls
    preceding it in the trace; and when the group admission fails, at the
    simulation or at the write, the handler answers 500 "Failed to add
    account to Semaphore group", returns, and never touches the database. *)
Theorem insert_only_after_handler_checks (w : World) (body : JsValue) :
  (forall e a,
     EvRun e a ∈ trace (fst (verify_otp_handler w body init)) ->
     exists data mintRes data' request hash before after,
       safeParse w body = ParseSuccess data
       /\ e = email data /\ a = address data
       /\ mintHat w (hatId w) (address data) = Ok mintRes
       /\ truthy (mint_status mintRes) = true
       /\ simulateContract w (SEMAPHORE_ADDRESS w) "gateAndAddMember"
            (identityCommitment data) data' = Ok request
       /\ writeContract w request = Ok hash
       /\ trace (fst (verify_otp_handler w body init)) =
            (before ++ EvRun e a :: after)%list
       /\ EvMintHat (hatId w) (address data) ∈ before
       /\ EvSimulateContract (SEMAPHORE_ADDRESS w) "gateAndAddMember"
            (identityCommitment data) data' ∈ before
       /\ EvWriteContract request ∈ before)
  /\ (forall data data',
        safeParse w body = ParseSuccess data ->
        verifyOtp w (email data) (otp data) = Ok true ->
        mint_failed w data = false ->
        encodeAbiParameters w (hatId w) = Ok data' ->
        admission_failed w data data' = true ->
        sent (fst (verify_otp_handler w body init)) = [GroupAdmissionFailed]
        /\ snd (verify_otp_handler w body init) = Ok Returned
        /\ never is_ledger (trace (fst (verify_otp_handler w body init))) = true).
Proof.
  split.
  - intros e a Hin.
    destruct (run_reaches_insert w body e a Hin)
      as (data & mintRes & data' & request & hash & rest & Hparse & He & Ha
          & Hotp & Hbig & Hm & Hst & Henc & Hsim & Hwr & Htr).
    exists data, mintRes, data', request, hash.
    exists [EvVerifyOtp (email data) (otp data);
            EvMintHat (hatId w) (address data);
            EvSimulateContract (SEMAPHORE_ADDRESS w) "gateAndAddMember"
              (identityCommitment data) data';
            EvWriteContract request; EvGetDb; EvPrepare insert_sql], rest.
    repeat split; try assumption; set_solver.
  - intros data data'. apply run_admission_failed.
Qed.

Lemma insert_only_after_handler_checks_witness :
  sent (fst (verify_otp_handler
               (with_writeContract (fun _ => Throw (Error "execution reverted")) happy)
               JObject init)) = [GroupAdmissionFailed]
  /\ snd (verify_otp_handler
            (with_writeContract (fun _ => Throw (Error "execution reverted")) happy)
            JObject init) = Ok Returned
  /\ never is_ledger
       (trace (fst (verify_otp_handler
                      (with_writeContract (fun _ => Throw (Error "execution reverted")) happy)
                      JObject init))) = true.
Proof.
  exact (proj2 (insert_only_after_handler_checks
    (with_writeContract (fun _ => Throw (Error "execution reverted")) happy) JObject)
    alice "0x07" eq_refl eq_refl eq_refl eq_refl eq_refl).
Defined.

(** ** The domain check of /send-otp *)

Lemma append_cons (c : ascii) (p t : string) :
  String c p ++ t = String c (p ++ t).
Proof. reflexivity. Qed.

Lemma substring_0_length (t : string) : substring 0 (String.length t) t = t.
Proof. induction t as [| c t IH]; simpl; [reflexivity | now rewrite IH]. Qed.

Lemma substring_skip_prefix (p t : string) :
  substring (String.length p) (String.length t) (p ++ t) = t.
Proof.
  induction p as [| c p IH]; simpl.
  - apply substring_0_length.
  - exact IH.
Qed.

Lemma length_append (p t : string) :
  String.length (p ++ t) = (String.length p + String.length t)%nat.
Proof. induction p as [| c p IH]; simpl; [reflexivity | now rewrite IH]. Qed.

(** Any string splits at any position within it. *)
Lemma substring_split (s : string) (n : nat) :
  (n <= String.length s)%nat ->
  s = substring 0 n s ++ substring n (String.length s - n) s.
Proof.
  revert n. induction s as [| c s IH]; intros n Hn; simpl in *.
  - destruct n; [reflexivity | lia].
  - destruct n as [| n]; simpl.
    + now rewrite substring_0_length.
    + rewrite append_cons. f_equal. apply IH. lia.
Qed.

(** [endsWith] is exactly "has this suffix". *)
Lemma endsWith_spec (s t : string) :
  endsWith s t = true <-> exists p, s = p ++ t.
Proof.
  unfold endsWith. split.
  - destruct (Nat.leb_spec (String.length t) (String.length s)) as [Hle | Hlt];
      [| discriminate].
    intros Heq. apply String.eqb_eq in Heq.
    exists (substring 0 (String.length s - String.length t) s).
    pose proof (substring_split s (String.length s - String.length t)) as Hsplit.
    replace (String.length s - (String.length s - String.length t))%nat
      with (String.length t) in Hsplit by lia.
    rewrite Heq in Hsplit. apply Hsplit. lia.
  - intros [p ->]. rewrite length_append.
    destruct (Nat.leb_spec (String.length t) (String.length p + String.length t))
      as [Hle | Hlt]; [| lia].
    replace (String.length p + String.length t - String.length t)%nat
      with (String.length p) by lia.
    rewrite substring_skip_prefix. apply String.eqb_refl.
Qed.

(** What the handler does on a string that passes the check. *)
Lemma run_send_accepted (w : World) (e : string) :
  endsWith e "@pse.dev" = true ->
  trace (fst (send_otp_handler w (JString e) init)) = [EvSendOtp e].
Proof.
  intros Hends. unfold_handler. simpl.
  assert (Hne : String.eqb e "" = false).
  { destruct e; [discriminate Hends | reflexivity]. }
  rewrite Hne, Hends. simpl. destruct (sendOtp w e); reflexivity.
Qed.

(** What the handler does on a string that fails the check. *)
Lemma run_send_rejected (w : World) (e : string) :
  endsWith e "@pse.dev" = false ->
  send_otp_handler w (JString e) init =
    ({| trace := [];
        sent := [json 400 (if String.eqb e "" then "Email is required"
                           else "Invalid email domain")] |}, Ok Returned).
Proof.
  intros Hends. unfold_handler. simpl.
  destruct (String.eqb e "") eqn:Hempty; simpl; [reflexivity |].
  rewrite Hends. reflexivity.
Qed.

(** A value that is not a string never reaches [sendOtp] either. *)
Lemma run_send_not_string (w : World) (v : JsValue) :
  (forall e, v <> JString e) ->
  trace (fst (send_otp_handler w v init)) = [].
Proof.
  intros Hns. unfold_handler.
  destruct v; simpl; try reflexivity.
  - destruct b; reflexivity.
  - destruct (n =? 0)%Z; reflexivity.
  - now destruct (Hns s).
Qed.

(** C6. For every email that does not end with the accepted domain suffix,
    the handler answers a validation error (status 400) and returns before
    anything is issued: [sendOtp], which creates and sends the OTP, is never
    called, and no other collaborator is. *)
Theorem invalid_domain_rejected_before_issue (w : World) (e : string) :
  endsWith e "@pse.dev" = false ->
  (exists msg,
     send_otp_handler w (JString e) init =
       ({| trace := []; sent := [json 400 msg] |}, Ok Returned))
  /\ never is_otp_issue (trace (fst (send_otp_handler w (JString e) init))) = true.
Proof.
  intros Hends. rewrite (run_send_rejected w e Hends).
  split; [eexists; reflexivity | reflexivity].
Qed.

Lemma invalid_domain_rejected_before_issue_witness :
  exists msg,
    send_otp_handler happy (JString "alice@org.example") init =
      ({| trace := []; sent := [json 400 msg] |}, Ok Returned).
Proof.
  exact (proj1 (invalid_domain_rejected_before_issue happy "alice@org.example" eq_refl)).
Defined.

(** C10. The handler issues an OTP exactly for the strings that end with
    the literal "@pse.dev": whatever precedes the suffix is accepted, the
    empty local part included (the bare "@pse.dev" passes), anything else is
    turned away, and nothing but the suffix is examined. *)
Theorem domain_check_is_suffix_only (w : World) (v : JsValue) :
  ((exists e, EvSendOtp e ∈ trace (fst (send_otp_handler w v init)))
   <-> exists local, v = JString (local ++ "@pse.dev"))
  /\ trace (fst (send_otp_handler w (JString "@pse.dev") init))
     = [EvSendOtp "@pse.dev"].
Proof.
  split; [| now apply run_send_accepted].
  split.
  - intros [e' Hin]. destruct v as [| | b | n | | e |];
      try (rewrite run_send_not_string in Hin by discriminate; set_solver).
    destruct (endsWith e "@pse.dev") eqn:Hends.
    + apply endsWith_spec in Hends as [local ->]. now exists local.
    + rewrite (run_send_rejected w e Hends) in Hin. simpl in Hin. set_solver.
  - intros [local ->]. exists (local ++ "@pse.dev").
    rewrite run_send_accepted.
    + set_solver.
    + apply endsWith_spec. now exists local.
Qed.

(** ** Failure responses *)

(** The response of a failing step; only the ledger step uses the
    exception. *)
Lemma sent_of_failing_step (w : World) (body : JsValue) (data : VerifyOtpData)
    (st : Step) :
  safeParse w body = ParseSuccess data ->
  failing_step w data = Some st ->
  sent (fst (verify_otp_handler w body init)) =
    match st with
    | AtOtp => [OtpRejected]
    | AtMint => [CredentialMintFailed]
    | AtAdmission => [GroupAdmissionFailed]
    | AtLedger =>
        match ledger_failure w data with
        | Some e => [LedgerWriteFailed e]
        | None => []
        end
    end.
Proof.
  intros Hparse. unfold failing_step.
  destruct (verifyOtp w (email data) (otp data)) as [[|] | err] eqn:Hotp;
    [| intros [= <-]; now rewrite (run_otp_false w body data Hparse Hotp)
     | discriminate].
  destruct (mint_failed w data) eqn:Hmint;
    [intros [= <-]; now rewrite (run_mint_failed w body data Hparse Hotp Hmint) |].
  destruct (encodeAbiParameters w (hatId w)) as [data' | err] eqn:Henc;
    [| discriminate].
  destruct (admission_failed w data data') eqn:Hadm.
  { intros [= <-].
    now destruct (run_admission_failed w body data data' Hparse Hotp Hmint Henc Hadm)
      as [-> _]. }
  destruct (getDb w) as [[] | err] eqn:Hdb; [| discriminate].
  destruct (ledger_failure w data) as [e |] eqn:Hled; [| discriminate].
  intros [= <-].
  unfold mint_failed in Hmint. unfold hatId in Henc.
  unfold admission_failed in Hadm. unfold ledger_failure in Hled.
  unfold_handler. rewrite Hparse, Hotp. simpl.
  destruct (BigInt w (HAT_ID w)) as [hat | err]; [| discriminate Hmint]. simpl.
  destruct (mintHat w hat (address data)) as [mintRes | err];
    [| discriminate Hmint].
  simpl. rewrite Hmint. simpl. rewrite Henc. simpl.
  destruct (simulateContract w (SEMAPHORE_ADDRESS w) "gateAndAddMember"
              (identityCommitment data) data') as [request | err];
    [| discriminate Hadm].
  simpl. destruct (writeContract w request) as [hash | err];
    [| discriminate Hadm].
  simpl. rewrite Hdb. simpl. revert Hled.
  destruct (db_prepare w insert_sql); simpl;
    [destruct (stmt_run w (email data) (address data)); simpl;
       [destruct (stmt_finalize w); simpl |] |];
    intros [= ->]; destruct (db_close w); reflexivity.
Qed.

(** What a caller reads in [body.error.code] of a ledger failure. *)
Lemma error_code_of_ledger_failure (e : Exn) :
  error_code (wire_body (LedgerWriteFailed e))
  = match e with
    | SqliteError code _ => Frontend.JsonString code
    | _ => Frontend.JsonUndefined
    end.
Proof. destruct e; reflexivity. Qed.

(** C8. When the row insert fails on the uniqueness constraint, the
    response is told apart from that of any other ledger failure by what the
    caller receives: its body carries [error.code = "SQLITE_CONSTRAINT"],
    which no failure of another kind (another database code, or an exception
    that is no database error) produces, so the two bodies always differ.
    Status and message are the same in both, 500 and "Could not store
    account": the already-registered outcome is marked by the error code
    alone. *)
Theorem already_registered_is_distinguishable
    (w1 w2 : World) (body1 body2 : JsValue) (data1 data2 : VerifyOtpData)
    (e1 e2 : Exn) :
  safeParse w1 body1 = ParseSuccess data1 ->
  safeParse w2 body2 = ParseSuccess data2 ->
  failing_step w1 data1 = Some AtLedger ->
  failing_step w2 data2 = Some AtLedger ->
  ledger_failure w1 data1 = Some e1 ->
  ledger_failure w2 data2 = Some e2 ->
  is_constraint_violation e1 = true ->
  is_constraint_violation e2 = false ->
  exists r1 r2,
    sent (fst (verify_otp_handler w1 body1 init)) = [r1]
    /\ sent (fst (verify_otp_handler w2 body2 init)) = [r2]
    /\ error_code (wire_body r1) = Frontend.JsonString "SQLITE_CONSTRAINT"
    /\ error_code (wire_body r2) <> Frontend.JsonString "SQLITE_CONSTRAINT"
    /\ wire_body r1 <> wire_body r2
    /\ outcome r1 = (500%Z, "Could not store account")
    /\ outcome r2 = (500%Z, "Could not store account").
Proof.
  intros Hp1 Hp2 Hs1 Hs2 Hl1 Hl2 Hc1 Hc2.
  pose proof (sent_of_failing_step w1 body1 data1 AtLedger Hp1 Hs1) as H1.
  pose proof (sent_of_failing_step w2 body2 data2 AtLedger Hp2 Hs2) as H2.
  rewrite Hl1 in H1. rewrite Hl2 in H2.
  exists (LedgerWriteFailed e1), (LedgerWriteFailed e2).
  assert (Hcode1 : error_code (wire_body (LedgerWriteFailed e1))
                   = Frontend.JsonString "SQLITE_CONSTRAINT").
  { rewrite error_code_of_ledger_failure.
    destruct e1 as [m | m | code m]; try discriminate Hc1.
    simpl in Hc1. apply String.eqb_eq in Hc1. now subst code. }
  assert (Hcode2 : error_code (wire_body (LedgerWriteFailed e2))
                   <> Frontend.JsonString "SQLITE_CONSTRAINT").
  { rewrite error_code_of_ledger_failure.
    destruct e2 as [m | m | code m]; try discriminate.
    simpl in Hc2. apply String.eqb_neq in Hc2. congruence. }
  repeat split; try assumption; try reflexivity.
  intros Heq. apply Hcode2. rewrite <- Heq. exact Hcode1.
Qed.

Lemma already_registered_is_distinguishable_witness :
  exists r1 r2,
    sent (fst (verify_otp_handler already_registered JObject init)) = [r1]
    /\ sent (fst (verify_otp_handler disk_failure JObject init)) = [r2]
    /\ error_code (wire_body r1) = Frontend.JsonString "SQLITE_CONSTRAINT"
    /\ error_code (wire_body r2) <> Frontend.JsonString "SQLITE_CONSTRAINT"
    /\ wire_body r1 <> wire_body r2
    /\ outcome r1 = (500%Z, "Could not store account")
    /\ outcome r2 = (500%Z, "Could not store account").
Proof.
  exact (already_registered_is_distinguishable already_registered disk_failure
           JObject JObject alice alice
           (SqliteError "SQLITE_CONSTRAINT" "UNIQUE constraint failed: accounts.email")
           (SqliteError "SQLITE_IOERR" "disk I/O error")
           eq_refl eq_refl eq_refl eq_refl eq_refl eq_refl eq_refl eq_refl).
Defined.

(** The response of a failing step of [/send-otp]; only the send step
    carries an exception. *)
Lemma sent_of_send_failing_step (w : World) (v : JsValue) (st : SendStep) :
  send_failing_step w v = Some st ->
  match st with
  | AtRequired =>
      sent (fst (send_otp_handler w v init)) = [json 400 "Email is required"]
  | AtDomain =>
      sent (fst (send_otp_handler w v init)) = [json 400 "Invalid email domain"]
  | AtSend =>
      exists e x,
        v = JString e /\ sendOtp w e = Throw x
        /\ sent (fst (send_otp_handler w v init))
           = [json_error 500 "Failed to send OTP" x]
  end.
Proof.
  unfold send_failing_step. unfold_handler.
  destruct (truthy v) eqn:Htruthy; simpl; [| now intros [= <-]].
  destruct v as [| | b | n | | e |]; try discriminate.
  destruct (endsWith e "@pse.dev") eqn:Hends; simpl; [| now intros [= <-]].
  destruct (sendOtp w e) as [[] | x] eqn:Hsend; [discriminate |].
  intros [= <-]. now exists e, x.
Qed.

(** The claim of C9 fails: two requests that fail at the same step, the
    ledger write, with different exceptions receive different bodies, each
    holding the [errno] and [code] of the exception the database raised. *)
Lemma ledger_failure_body_shows_exception :
  failing_step already_registered alice = Some AtLedger
  /\ failing_step disk_failure alice = Some AtLedger
  /\ map wire_body (sent (fst (verify_otp_handler already_registered JObject init)))
     = [Frontend.JsonObject
          [("message", Frontend.JsonString "Could not store account");
           ("error", Frontend.JsonObject
                       [("errno", Frontend.JsonNumber 19);
                        ("code", Frontend.JsonString "SQLITE_CONSTRAINT")])]]
  /\ map wire_body (sent (fst (verify_otp_handler disk_failure JObject init)))
     = [Frontend.JsonObject
          [("message", Frontend.JsonString "Could not store account");
           ("error", Frontend.JsonObject
                       [("errno", Frontend.JsonNumber 10);
                        ("code", Frontend.JsonString "SQLITE_IOERR")])]]
  /\ map wire_body (sent (fst (verify_otp_handler already_registered JObject init)))
     <> map wire_body (sent (fst (verify_otp_handler disk_failure JObject init))).
Proof. repeat split; try reflexivity. discriminate. Qed.

(** C9, amended. Two runs that fail at the same step are answered with the
    same status and message. When the step is the OTP rejection, the mint or
    the group admission (or, for an OTP request, the missing email or the
    domain check), the whole body is the same and holds no exception,
    whatever the collaborators raised. When the step is the OTP send or the
    ledger write, the handler puts the caught exception in the [error] field
    next to that fixed status and message, and the body the caller receives
    carries there what the exception serialises to: its enumerable
    properties, [errno] and [code] for a database error, nothing for a plain
    error. *)
Theorem failure_response_fixed_by_step (w1 w2 : World) :
  (forall body1 body2 data1 data2 st,
     safeParse w1 body1 = ParseSuccess data1 ->
     safeParse w2 body2 = ParseSuccess data2 ->
     failing_step w1 data1 = Some st ->
     failing_step w2 data2 = Some st ->
     map outcome (sent (fst (verify_otp_handler w1 body1 init)))
     = map outcome (sent (fst (verify_otp_handler w2 body2 init)))
     /\ (st <> AtLedger ->
         sent (fst (verify_otp_handler w1 body1 init))
         = sent (fst (verify_otp_handler w2 body2 init))
         /\ existsb echoes_exception
              (sent (fst (verify_otp_handler w1 body1 init))) = false)
     /\ (st = AtLedger ->
         exists e, ledger_failure w1 data1 = Some e
           /\ sent (fst (verify_otp_handler w1 body1 init))
              = [json_error 500 "Could not store account" e]
           /\ map wire_body (sent (fst (verify_otp_handler w1 body1 init)))
              = [Frontend.JsonObject
                   [("message", Frontend.JsonString "Could not store account");
                    ("error", wire_error e)]]))
  /\ (forall v1 v2 st,
        send_failing_step w1 v1 = Some st ->
        send_failing_step w2 v2 = Some st ->
        map outcome (sent (fst (send_otp_handler w1 v1 init)))
        = map outcome (sent (fst (send_otp_handler w2 v2 init)))
        /\ (st <> AtSend ->
            sent (fst (send_otp_handler w1 v1 init))
            = sent (fst (send_otp_handler w2 v2 init))
            /\ existsb echoes_exception
                 (sent (fst (send_otp_handler w1 v1 init))) = false)
        /\ (st = AtSend ->
            exists e x, v1 = JString e /\ sendOtp w1 e = Throw x
              /\ sent (fst (send_otp_handler w1 v1 init))
                 = [json_error 500 "Failed to send OTP" x]
              /\ map wire_body (sent (fst (send_otp_handler w1 v1 init)))
                 = [Frontend.JsonObject
                      [("message", Frontend.JsonString "Failed to send OTP");
                       ("error", wire_error x)]])).
Proof.
  split.
  - intros body1 body2 data1 data2 st Hp1 Hp2 Hs1 Hs2.
    pose proof (sent_of_failing_step w1 body1 data1 st Hp1 Hs1) as H1.
    pose proof (sent_of_failing_step w2 body2 data2 st Hp2 Hs2) as H2.
    rewrite H1, H2. destruct st; try (repeat split; (reflexivity || discriminate)).
    unfold failing_step in Hs1, Hs2.
    destruct (ledger_failure w1 data1) as [e1 |];
      [| repeat case_match; discriminate].
    destruct (ledger_failure w2 data2) as [e2 |];
      [| repeat case_match; discriminate].
    split; [reflexivity |].
    split; [intros Hne; now destruct Hne |].
    intros _. now exists e1.
  - intros v1 v2 st Hs1 Hs2.
    pose proof (sent_of_send_failing_step w1 v1 st Hs1) as H1.
    pose proof (sent_of_send_failing_step w2 v2 st Hs2) as H2.
    destruct st.
    + rewrite H1, H2. repeat split; (reflexivity || discriminate).
    + rewrite H1, H2. repeat split; (reflexivity || discriminate).
    + destruct H1 as (e1 & x1 & -> & Hx1 & ->).
      destruct H2 as (e2 & x2 & -> & Hx2 & ->).
      split; [reflexivity |].
      split; [intros Hne; now destruct Hne |].
      intros _. now exists e1, x1.
Qed.

Lemma failure_response_fixed_by_step_witness :
  map outcome
    (sent (fst (verify_otp_handler
                  (with_mintHat (fun _ _ => Throw (Error "insufficient funds")) happy)
                  JObject init)))
  = map outcome
      (sent (fst (verify_otp_handler
                    (with_mintHat (fun _ _ => Throw (Error "nonce too low")) happy)
                    JObject init))).
Proof.
  exact (proj1 (proj1 (failure_response_fixed_by_step
    (with_mintHat (fun _ _ => Throw (Error "insufficient funds")) happy)
    (with_mintHat (fun _ _ => Throw (Error "nonce too low")) happy))
    JObject JObject alice alice AtMint eq_refl eq_refl eq_refl eq_refl)).
Defined.

(** ** The OTP store: single use *)

Section OtpStoreFacts.
Import OtpStore.

Lemma verify_false_keeps_store (now : Z) (e c : string)
    (store : gmap string OtpRecord) :
  snd (verify now e c store) = false -> fst (verify now e c store) = store.
Proof.
  unfold verify. destruct (store !! e) as [r |]; [| reflexivity].
  destruct (negb (String.eqb (code r) c)); [reflexivity |].
  destruct (expiresAt r <? now)%Z; [reflexivity |].
  destruct (consumed r); [reflexivity | discriminate].
Qed.

Lemma verify_true_inv (now : Z) (e c : string)
    (store : gmap string OtpRecord) :
  snd (verify now e c store) = true ->
  exists r,
    store !! e = Some r /\ code r = c /\ (now <= expiresAt r)%Z
    /\ consumed r = false
    /\ fst (verify now e c store) = <[e := mark_consumed r]> store.
Proof.
  unfold verify. destruct (store !! e) as [r |]; [| discriminate].
  destruct (String.eqb_spec (code r) c) as [Hcode | Hcode]; simpl;
    [| discriminate].
  destruct (Z.ltb_spec (expiresAt r) now) as [Hexp | Hexp]; [discriminate |].
  destruct (consumed r) eqn:Hcons; [discriminate |].
  intros _. exists r. repeat split; (assumption || reflexivity).
Qed.

Lemma verify_true_consumes (now : Z) (e c : string)
    (store : gmap string OtpRecord) :
  snd (verify now e c store) = true ->
  is_consumed e (fst (verify now e c store)).
Proof.
  intros Htrue.
  destruct (verify_true_inv now e c store Htrue) as (r & _ & _ & _ & _ & ->).
  exists (mark_consumed r). split; [apply lookup_insert_eq | reflexivity].
Qed.

Lemma verify_consumed_false (now : Z) (e c : string)
    (store : gmap string OtpRecord) :
  is_consumed e store -> verify now e c store = (store, false).
Proof.
  intros (r & Hr & Hcons). unfold verify. rewrite Hr.
  destruct (negb (String.eqb (code r) c)); [reflexivity |].
  destruct (expiresAt r <? now)%Z; [reflexivity |].
  now rewrite Hcons.
Qed.

(** No [verify] call, for any email, brings a consumed record back. *)
Lemma verify_preserves_consumed (now : Z) (e e' c : string)
    (store : gmap string OtpRecord) :
  is_consumed e store -> is_consumed e (fst (verify now e' c store)).
Proof.
  intros Hcons.
  destruct (snd (verify now e' c store)) eqn:Hres.
  - destruct (verify_true_inv now e' c store Hres)
      as (r' & Hr' & _ & _ & Hfresh & ->).
    destruct Hcons as (r & Hr & Hc).
    destruct (decide (e' = e)) as [-> | Hne].
    + rewrite Hr in Hr'. injection Hr' as ->. congruence.
    + exists r. split; [| exact Hc]. now rewrite lookup_insert_ne.
  - now rewrite verify_false_keeps_store.
Qed.

Lemma verify_all_preserves_consumed (calls : list Call) (e : string)
    (store : gmap string OtpRecord) :
  is_consumed e store -> is_consumed e (fst (verify_all calls store)).
Proof.
  revert store. induction calls as [| c calls IH]; intros store Hcons;
    [exact Hcons |].
  simpl.
  pose proof (verify_preserves_consumed (call_now c) e (call_email c)
                (call_code c) store Hcons) as Hstep.
  destruct (verify (call_now c) (call_email c) (call_code c) store)
    as [store' b].
  specialize (IH store' Hstep).
  destruct (verify_all calls store') as [store'' bs]. exact IH.
Qed.

Lemma successes_consumed (calls : list Call) (e : string)
    (store : gmap string OtpRecord) :
  is_consumed e store ->
  successes e calls (snd (verify_all calls store)) = 0%nat.
Proof.
  revert store. induction calls as [| c calls IH]; intros store Hcons;
    [reflexivity |].
  simpl.
  pose proof (verify_preserves_consumed (call_now c) e (call_email c)
                (call_code c) store Hcons) as Hstep.
  destruct (String.eqb_spec (call_email c) e) as [Heq | Hne].
  - rewrite Heq in *. rewrite (verify_consumed_false _ _ _ _ Hcons) in *.
    specialize (IH store Hcons).
    destruct (verify_all calls store) as [store'' bs]. simpl in *.
    exact IH.
  - destruct (verify (call_now c) (call_email c) (call_code c) store)
      as [store' b].
    specialize (IH store' Hstep).
    destruct (verify_all calls store') as [store'' bs]. simpl in *.
    exact IH.
Qed.

End OtpStoreFacts.

Section OtpStoreClaims.
Import OtpStore.

(** C5. [verify] fails closed. It is a total function to a boolean (it
    has no failure mode of its own) and answers false, leaving the store
    as it is, when no record exists for the email, when the stored code
    differs from the submitted one, when the clock is past [expiresAt],
    and when the record is already consumed. In the one remaining case it
    marks the record consumed and answers true. *)
Theorem verify_fails_closed (now : Z) (e c : string)
    (store : gmap string OtpRecord) :
  (store !! e = None -> verify now e c store = (store, false))
  /\ (forall r,
        store !! e = Some r ->
        code r <> c \/ (expiresAt r < now)%Z \/ consumed r = true ->
        verify now e c store = (store, false))
  /\ (forall r,
        store !! e = Some r ->
        code r = c -> (now <= expiresAt r)%Z -> consumed r = false ->
        verify now e c store = (<[e := mark_consumed r]> store, true)
        /\ (<[e := mark_consumed r]> store) !! e = Some (mark_consumed r)
        /\ consumed (mark_consumed r) = true).
Proof.
  unfold verify. split; [intros ->; reflexivity |]. split.
  - intros r -> Hbad.
    destruct (String.eqb_spec (code r) c) as [Hcode | Hcode]; simpl;
      [| reflexivity].
    destruct (Z.ltb_spec (expiresAt r) now) as [Hexp | Hexp]; [reflexivity |].
    destruct (consumed r) eqn:Hcons; [reflexivity |].
    destruct Hbad as [Hbad | [Hbad | Hbad]]; [congruence | lia | discriminate].
  - intros r -> Hcode Hexp Hcons.
    rewrite (proj2 (String.eqb_eq _ _) Hcode). simpl.
    rewrite (proj2 (Z.ltb_ge _ _) Hexp), Hcons.
    repeat split. apply lookup_insert_eq.
Qed.

Lemma verify_fails_closed_witness :
  verify 2000 "alice@pse.dev" "4821" sample_store =
    (<["alice@pse.dev" :=
         mark_consumed {| email := "alice@pse.dev"; code := "4821";
                          issuedAt := 1000; expiresAt := 301000;
                          consumed := false |}]> sample_store, true).
Proof.
  refine (proj1 (proj2 (proj2
    (verify_fails_closed 2000 "alice@pse.dev" "4821" sample_store))
    {| email := "alice@pse.dev"; code := "4821"; issuedAt := 1000;
       expiresAt := 301000; consumed := false |} _ _ _ _)).
  - apply lookup_insert_eq.
  - reflexivity.
  - simpl. lia.
  - reflexivity.
Defined.

(** C4. [verify] answers true at most once per email over any sequence of
    [verify] calls: once a call for [(e, c)] has answered true, every later
    call with the same arguments answers false, whatever calls (for any
    email, code and clock reading) came in between; and in any sequence of
    calls, from any store, at most one call for [e] answers true. *)
Theorem verify_true_at_most_once (e : string) :
  (forall now c store,
     snd (verify now e c store) = true ->
     forall calls now',
       snd (verify now' e c
              (fst (verify_all calls (fst (verify now e c store))))) = false)
  /\ (forall calls store,
        (successes e calls (snd (verify_all calls store)) <= 1)%nat).
Proof.
  split.
  - intros now c store Htrue calls now'.
    rewrite verify_consumed_false; [reflexivity |].
    apply verify_all_preserves_consumed. now apply verify_true_consumes.
  - induction calls as [| k calls IH]; intros store; [simpl; lia |].
    simpl.
    pose proof (verify_true_consumes (call_now k) (call_email k)
                  (call_code k) store) as Hcons.
    destruct (verify (call_now k) (call_email k) (call_code k) store)
      as [store' b] eqn:Hstep.
    specialize (IH store').
    pose proof (successes_consumed calls e store') as Hzero.
    destruct (verify_all calls store') as [store'' bs]. simpl in *.
    destruct (String.eqb_spec (call_email k) e) as [Heq | Hne]; simpl;
      [| exact IH].
    destruct b; simpl; [| exact IH].
    rewrite Heq in Hcons. rewrite (Hzero (Hcons eq_refl)). lia.
Qed.

Lemma verify_true_at_most_once_witness :
  snd (verify 3000 "alice@pse.dev" "4821"
         (fst (verify_all [mkCall 2500 "bob@pse.dev" "0000";
                           mkCall 2600 "alice@pse.dev" "4821"]
                 (fst (verify 2000 "alice@pse.dev" "4821" sample_store)))))
  = false.
Proof.
  refine (proj1 (verify_true_at_most_once "alice@pse.dev")
            2000%Z "4821" sample_store _
            [mkCall 2500 "bob@pse.dev" "0000";
             mkCall 2600 "alice@pse.dev" "4821"] 3000%Z).
  vm_compute. reflexivity.
Defined.

End OtpStoreClaims.

(** ** Every path of /verify-otp *)

(** X1. The handler writes at most one response per request, on every path
    of both endpoints. *)
Theorem at_most_one_response (w : World) (v : JsValue) :
  (length (sent (fst (verify_otp_handler w v init))) <= 1)%nat
  /\ (length (sent (fst (send_otp_handler w v init))) <= 1)%nat.
Proof.
  split.
  - each_path w; lia.
  - unfold_handler. destruct (truthy v); simpl; [| lia].
    destruct v; simpl; try lia.
    destruct (endsWith s "@pse.dev"); simpl; [| lia].
    destruct (sendOtp w s); simpl; lia.
Qed.

(** X2. A body the schema rejects is answered 400 "Validation error(s)" with
    one line per issue, and no collaborator is called; a body the schema
    accepts always reaches [verifyOtp]. So the trace is empty exactly for
    the rejected bodies. *)
Theorem schema_rejection_calls_nothing (w : World) (body : JsValue) :
  (trace (fst (verify_otp_handler w body init)) = []
   <-> exists issues, safeParse w body = ParseFailure issues)
  /\ (forall issues,
        safeParse w body = ParseFailure issues ->
        verify_otp_handler w body init =
          ({| trace := [];
              sent := [json_errors 400 "Validation error(s)"
                         (map issue_text issues)] |}, Ok Returned)
        /\ length (map issue_text issues) = length issues).
Proof.
  split.
  - split.
    + each_path w; intros Htr; try discriminate Htr. eauto.
    + intros [issues Hparse]. unfold_handler. now rewrite Hparse.
  - intros issues Hparse. split; [| apply length_map].
    unfold_handler. now rewrite Hparse.
Qed.

(** X3. The success response is written exactly when every check the
    handler makes has passed: [verifyOtp] returned true, the hat id
    converted, [mintHat] returned a result with a truthy status (which the
    string "reverted" is), and none of [encodeAbiParameters],
    [simulateContract], [writeContract], [getDb], [prepare], [run] and
    [finalize] threw. A failure of [db.close()] afterwards does not take the
    response back. The trace is then the whole flow in order, ending with
    the close of the database. *)
Theorem success_iff_every_check (w : World) (body : JsValue) :
  (Recorded ∈ sent (fst (verify_otp_handler w body init))
   <-> exists data,
         safeParse w body = ParseSuccess data
         /\ all_checks_pass w data = true)
  /\ (forall data,
        safeParse w body = ParseSuccess data ->
        all_checks_pass w data = true ->
        exists data' request,
          encodeAbiParameters w (hatId w) = Ok data'
          /\ simulateContract w (SEMAPHORE_ADDRESS w) "gateAndAddMember"
               (identityCommitment data) data' = Ok request
          /\ trace (fst (verify_otp_handler w body init)) =
               [EvVerifyOtp (email data) (otp data);
                EvMintHat (hatId w) (address data);
                EvSimulateContract (SEMAPHORE_ADDRESS w) "gateAndAddMember"
                  (identityCommitment data) data';
                EvWriteContract request;
                EvGetDb; EvPrepare insert_sql;
                EvRun (email data) (address data); EvFinalize; EvClose]).
Proof.
  split.
  - split.
    + unfold all_checks_pass, mint_failed, admission_failed, ledger_failure.
      each_path w; intros Hin;
        try (apply list_elem_of_singleton in Hin; discriminate Hin);
        try (apply elem_of_nil in Hin; destruct Hin);
        eexists; (split; [reflexivity |]);
        repeat match goal with H : _ = _ |- _ => rewrite H; simpl end;
        reflexivity.
    + intros [data [Hparse Hall]]. revert Hall.
      unfold all_checks_pass, mint_failed, admission_failed, ledger_failure.
      unfold verify_otp_handler. rewrite Hparse.
      each_path w; intros Hall; try discriminate Hall; set_solver.
  - intros data Hparse. unfold all_checks_pass, mint_failed,
      admission_failed, ledger_failure.
    unfold verify_otp_handler. rewrite Hparse.
    each_path w; intros Hall; try discriminate Hall;
      eexists _, _; (split; [reflexivity | split; [eassumption | reflexivity]]).
Qed.

Lemma success_iff_every_check_witness :
  exists data' request,
    encodeAbiParameters happy (hatId happy) = Ok data'
    /\ simulateContract happy (SEMAPHORE_ADDRESS happy) "gateAndAddMember"
         (identityCommitment alice) data' = Ok request
    /\ trace (fst (verify_otp_handler happy JObject init)) =
         [EvVerifyOtp (email alice) (otp alice);
          EvMintHat (hatId happy) (address alice);
          EvSimulateContract (SEMAPHORE_ADDRESS happy) "gateAndAddMember"
            (identityCommitment alice) data';
          EvWriteContract request;
          EvGetDb; EvPrepare insert_sql;
          EvRun (email alice) (address alice); EvFinalize; EvClose].
Proof.
  exact (proj2 (success_iff_every_check happy JObject) alice eq_refl eq_refl).
Defined.

(** X4. The database handle is closed on every path that opened it, and
    only there: [db.close()] is called exactly when [getDb()] was called and
    returned, and it is then the last call of the request, whatever the
    insert block did. *)
Theorem db_closed_iff_opened (w : World) (body : JsValue) :
  (EvClose ∈ trace (fst (verify_otp_handler w body init))
   <-> EvGetDb ∈ trace (fst (verify_otp_handler w body init))
       /\ getDb w = Ok tt)
  /\ (EvClose ∈ trace (fst (verify_otp_handler w body init)) ->
      last (trace (fst (verify_otp_handler w body init))) = Some EvClose).
Proof.
  split; [split |].
  - each_path w; intros Hin; try (split; [set_solver | reflexivity]);
      set_solver.
  - each_path w; intros [Hin Hdb]; try discriminate Hdb; set_solver.
  - each_path w; intros Hin; try reflexivity; set_solver.
Qed.

(** X5. The steps run one after the other in the order of the flow, each at
    most once: along the trace of any request the flow positions strictly
    increase. *)
Theorem steps_in_flow_order (w : World) (body : JsValue) :
  increasing (map rank (trace (fst (verify_otp_handler w body init)))) = true.
Proof. each_path w; reflexivity. Qed.

(** X6. When the handler returns, it has executed a [return] after writing
    exactly one response. *)
Theorem returns_after_one_response (w : World) (body : JsValue) (c : Completion) :
  snd (verify_otp_handler w body init) = Ok c ->
  c = Returned
  /\ exists r, sent (fst (verify_otp_handler w body init)) = [r].
Proof.
  each_path w; intros [= <-]; split; try reflexivity; eexists; reflexivity.
Qed.

Lemma returns_after_one_response_witness :
  Returned = Returned
  /\ exists r, sent (fst (verify_otp_handler happy JObject init)) = [r].
Proof.
  exact (returns_after_one_response happy JObject Returned eq_refl).
Defined.

(** X7. An exception leaves the handler only when it comes from
    [verifyOtp], [encodeAbiParameters], [getDb()] or [db.close()]. In the
    first three cases no response has been written; in the last one the
    response of the insert block has already been written. Exceptions of
    [mintHat], [simulateContract], [writeContract], [prepare], [run] and
    [finalize] never leave the handler. *)
Theorem escaping_exception_origin (w : World) (body : JsValue) (e : Exn) :
  snd (verify_otp_handler w body init) = Throw e ->
  exists data,
    safeParse w body = ParseSuccess data
    /\ ((verifyOtp w (email data) (otp data) = Throw e
         /\ sent (fst (verify_otp_handler w body init)) = [])
        \/ (encodeAbiParameters w (hatId w) = Throw e
            /\ sent (fst (verify_otp_handler w body init)) = [])
        \/ (getDb w = Throw e
            /\ sent (fst (verify_otp_handler w body init)) = [])
        \/ (db_close w = Throw e
            /\ EvClose ∈ trace (fst (verify_otp_handler w body init))
            /\ exists r, sent (fst (verify_otp_handler w body init)) = [r])).
Proof.
  each_path w; intros [= <-]; eexists; (split; [reflexivity |]);
    first [ left; split; [assumption | reflexivity]
          | right; left; split; reflexivity
          | right; right; left; split; reflexivity
          | right; right; right; split; [reflexivity |];
            split; [set_solver | eexists; reflexivity] ].
Qed.

Lemma escaping_exception_origin_witness :
  exists data, safeParse close_fails JObject = ParseSuccess data.
Proof.
  destruct (escaping_exception_origin close_fails JObject
              (SqliteError "SQLITE_MISUSE" "Database handle is closed") eq_refl)
    as [data [Hparse _]].
  exists data. exact Hparse.
Defined.

(** X8. The status of a response tells how far the flow got. Only 200, 400
    and 500 are used; a 400 is written before any chain or ledger call was
    made; a 500 is written only after [verifyOtp] has returned true, and
    after [mintHat] was called unless the conversion of the hat id threw;
    the only 200 is the success response. *)
Theorem status_tells_progress (w : World) (body : JsValue) (r : Response) :
  r ∈ sent (fst (verify_otp_handler w body init)) ->
  (status r = 200 \/ status r = 400 \/ status r = 500)%Z
  /\ (status r = 400%Z ->
      never is_credential_issuer (trace (fst (verify_otp_handler w body init))) = true
      /\ never is_group_admission (trace (fst (verify_otp_handler w body init))) = true
      /\ never is_ledger (trace (fst (verify_otp_handler w body init))) = true)
  /\ (status r = 500%Z ->
      (exists data,
         safeParse w body = ParseSuccess data
         /\ verifyOtp w (email data) (otp data) = Ok true)
      /\ (never is_credential_issuer
            (trace (fst (verify_otp_handler w body init))) = false
          \/ exists e, BigInt w (HAT_ID w) = Throw e))
  /\ (status r = 200%Z -> r = Recorded).
Proof.
  each_path w; intros Hin;
    try (apply elem_of_nil in Hin; destruct Hin);
    apply list_elem_of_singleton in Hin; subst r; simpl;
    (split; [lia |]);
    (split; [intros Hst; try discriminate Hst; repeat split; reflexivity |]);
    (split;
     [ intros Hst; try discriminate Hst;
       (split;
        [ eexists; split; [reflexivity | eassumption]
        | first [left; reflexivity | right; eexists; reflexivity] ])
     | intros Hst; (reflexivity || discriminate Hst) ]).
Qed.

Lemma status_tells_progress_witness :
  (exists data,
     safeParse unset_hat_id JObject = ParseSuccess data
     /\ verifyOtp unset_hat_id (email data) (otp data) = Ok true)
  /\ (never is_credential_issuer
        (trace (fst (verify_otp_handler unset_hat_id JObject init))) = false
      \/ exists e, BigInt unset_hat_id (HAT_ID unset_hat_id) = Throw e).
Proof.
  refine (proj1 (proj2 (proj2 (status_tells_progress unset_hat_id JObject
                                 CredentialMintFailed _))) eq_refl).
  simpl. apply list_elem_of_singleton. reflexivity.
Defined.

(** ** Every path of /send-otp *)

(** X9. For a string [email] the handler always returns after exactly one
    response; that response is the 200 exactly when the string ends with
    "@pse.dev" and [sendOtp] returned, and [sendOtp] is given the string
    unchanged (no trimming, no lower-casing). *)
Theorem send_otp_answers_every_string (w : World) (e : string) :
  snd (send_otp_handler w (JString e) init) = Ok Returned
  /\ (exists r, sent (fst (send_otp_handler w (JString e) init)) = [r])
  /\ (sent (fst (send_otp_handler w (JString e) init))
        = [json 200 "OTP sent successfully"]
      <-> endsWith e "@pse.dev" = true /\ sendOtp w e = Ok tt)
  /\ (forall e', EvSendOtp e' ∈ trace (fst (send_otp_handler w (JString e) init)) ->
                 e' = e).
Proof.
  unfold_handler. simpl.
  destruct (String.eqb_spec e "") as [-> | Hne]; simpl.
  { repeat split; try (eexists; reflexivity); try discriminate;
      [intros [Hends _]; discriminate Hends | set_solver]. }
  destruct (endsWith e "@pse.dev") eqn:Hends; simpl.
  - destruct (sendOtp w e) as [[] | x] eqn:Hsend; simpl;
      repeat split; try (eexists; reflexivity); try discriminate;
      try (intros [_ Hs]; discriminate Hs); set_solver.
  - repeat split; try (eexists; reflexivity); try discriminate;
      [intros [Hs _]; discriminate Hs | set_solver].
Qed.

(** X10. An [email] that is truthy but not a string (a number, [true], an
    array, an object) makes [email.endsWith] fail: the [TypeError] leaves
    the handler, which writes no response and calls nothing. A falsy value
    of any type is answered 400 "Email is required". *)
Theorem send_otp_non_string_email (w : World) (v : JsValue) :
  (forall e, v <> JString e) ->
  (truthy v = true ->
   send_otp_handler w v init
   = (init, Throw (TypeError "email.endsWith is not a function")))
  /\ (truthy v = false ->
      send_otp_handler w v init
      = ({| trace := []; sent := [json 400 "Email is required"] |}, Ok Returned)).
Proof.
  intros Hns. unfold_handler.
  destruct v as [| | b | n | | e |]; simpl;
    try (split; intros Ht; (reflexivity || discriminate Ht)).
  - destruct b; split; intros Ht; (reflexivity || discriminate Ht).
  - destruct (n =? 0)%Z; split; intros Ht; (reflexivity || discriminate Ht).
  - now destruct (Hns e).
Qed.

Lemma send_otp_non_string_email_witness :
  send_otp_handler happy (JNumber 42) init
  = (init, Throw (TypeError "email.endsWith is not a function")).
Proof.
  refine (proj1 (send_otp_non_string_email happy (JNumber 42) _) eq_refl).
  intros e He. discriminate He.
Defined.

(** The four responses [/send-otp] can write for a string. *)
Lemma send_otp_answers_string (w : World) (e : string) :
  exists r,
    sent (fst (send_otp_handler w (JString e) init)) = [r]
    /\ (r = json 400 "Email is required"
        \/ r = json 400 "Invalid email domain"
        \/ r = json 200 "OTP sent successfully"
        \/ exists x, r = json_error 500 "Failed to send OTP" x).
Proof.
  unfold_handler. simpl.
  destruct (String.eqb e ""); simpl; [eexists; split; [reflexivity | tauto] |].
  destruct (endsWith e "@pse.dev"); simpl;
    [| eexists; split; [reflexivity | tauto]].
  destruct (sendOtp w e) as [[] | x]; simpl; eexists; (split; [reflexivity |]);
    [tauto | right; right; right; now exists x].
Qed.

(** ** The register-email form *)

Section FrontendFacts.
Import Frontend.

Lemma requests_app (l1 l2 : list UiEvent) :
  requests (l1 ++ l2)%list = (requests l1 ++ requests l2)%list.
Proof. apply omap_app. Qed.

Lemma pushes_app (l1 l2 : list UiEvent) :
  pushes (l1 ++ l2)%list = (pushes l1 ++ pushes l2)%list.
Proof. apply omap_app. Qed.

Lemma toasts_app (l1 l2 : list UiEvent) :
  toasts (l1 ++ l2)%list = (toasts l1 ++ toasts l2)%list.
Proof. apply List.filter_app. Qed.

Ltac ui_unfold :=
  unfold form_registerEmail, registerEmail, verifyOtp, generateEmbeddedAccount,
    post, read_emailField, F_try_catch, mbind, F_mbind, F_bind, F_ret, await,
    emit, setRegistering, setEmail, setItem;
  simpl.

Ltac ui_events :=
  rewrite ?requests_app, ?pushes_app, ?toasts_app, ?length_app; simpl;
  rewrite ?app_nil_r.

(** X11. Whatever the network does, [registerEmail] of the form catches
    every exception, ends with the [registering] flag cleared, sends exactly
    one request (the POST to [/send-otp] with the email field), shows exactly
    one toast, and leaves [localStorage] alone. *)
Theorem form_always_settles (b : Browser) (f : EmailField) (ui : Ui) :
  snd (form_registerEmail b f ui) = Ok tt
  /\ registering (fst (form_registerEmail b f ui)) = false
  /\ requests (events (fst (form_registerEmail b f ui)))
     = (requests (events ui)
        ++ [((backendUrl b ++ "/send-otp")%string, SendOtpBody f)])%list
  /\ length (toasts (events (fst (form_registerEmail b f ui))))
     = S (length (toasts (events ui)))
  /\ localStorage (fst (form_registerEmail b f ui)) = localStorage ui.
Proof.
  ui_unfold.
  destruct (fetch b (backendUrl b ++ "/send-otp") (SendOtpBody f))
    as [response | x]; simpl.
  2:{ ui_events. repeat split; try reflexivity. lia. }
  destruct (res_json response) as [json | x]; simpl.
  2:{ ui_events. repeat split; try reflexivity. lia. }
  destruct (res_ok response); simpl.
  { ui_events. repeat split; try reflexivity. lia. }
  destruct (toast_text json) as [text | x]; simpl;
    ui_events; repeat split; try reflexivity; lia.
Qed.

(** X12. The form records the email (and shows the success toast) exactly
    when the request is accepted: [fetch] returned, the body parsed as JSON
    and the response is [ok]. The body is parsed before [ok] is looked at, so
    an [ok] response whose body does not parse is treated as a failure. In
    every other case the email state is left as it was and the toast is an
    error toast. *)
Theorem form_records_email_iff_accepted (b : Browser) (f : EmailField) (ui : Ui) :
  (form_accepted b f = true ->
   emailField (fst (form_registerEmail b f ui)) = Some f
   /\ toasts (events (fst (form_registerEmail b f ui)))
      = (toasts (events ui)
         ++ [ToastSuccess ("OTP has been sent to " ++ email f)%string])%list)
  /\ (form_accepted b f = false ->
      emailField (fst (form_registerEmail b f ui)) = emailField ui
      /\ exists text,
           toasts (events (fst (form_registerEmail b f ui)))
           = (toasts (events ui) ++ [ToastError text])%list).
Proof.
  unfold form_accepted. ui_unfold.
  destruct (fetch b (backendUrl b ++ "/send-otp") (SendOtpBody f))
    as [response | x]; simpl.
  2:{ ui_events. split; [discriminate |]. intros _. split; [reflexivity |].
      eexists; reflexivity. }
  destruct (res_json response) as [json | x]; simpl.
  2:{ ui_events. split; [discriminate |]. intros _. split; [reflexivity |].
      eexists; reflexivity. }
  destruct (res_ok response); simpl.
  { ui_events. split; [| discriminate]. intros _. split; reflexivity. }
  destruct (toast_text json) as [text | x]; simpl; ui_events;
    (split; [discriminate |]); intros _; (split; [reflexivity |]);
    eexists; reflexivity.
Qed.

Lemma form_records_email_iff_accepted_witness :
  emailField (fst (form_registerEmail (browser_of happy)
                     {| email := "bob@pse.dev" |} start))
  = Some {| email := "bob@pse.dev" |}
  /\ toasts (events (fst (form_registerEmail (browser_of happy)
                            {| email := "bob@pse.dev" |} start)))
     = (toasts (events start)
        ++ [ToastSuccess ("OTP has been sent to " ++ "bob@pse.dev")%string])%list.
Proof.
  exact (proj1 (form_records_email_iff_accepted (browser_of happy)
                  {| email := "bob@pse.dev" |} start) eq_refl).
Defined.

(** X13. Which text the error toast shows, [(json.errors && json.errors[0])
    ?? json.message] on a body that is an object: the first element of
    [errors] when it is a non-empty array whose first element is not null,
    the [message] when [errors] is missing, null, an empty array or starts
    with null, and the value of [errors] itself when it is falsy without
    being null ([false], [0], the empty string): [??] does not fall through
    on those, so the [message] is not shown. On a [null] body the expression
    throws. *)
Theorem toast_text_cases (fields : list (string * Json)) :
  (nullish (lookup_field "errors" fields) = true ->
   toast_text (JsonObject fields) = Ok (lookup_field "message" fields))
  /\ (forall x rest,
        lookup_field "errors" fields = JsonArray (x :: rest) ->
        toast_text (JsonObject fields)
        = Ok (if nullish x then lookup_field "message" fields else x))
  /\ (lookup_field "errors" fields = JsonArray [] ->
      toast_text (JsonObject fields) = Ok (lookup_field "message" fields))
  /\ (json_truthy (lookup_field "errors" fields) = false ->
      nullish (lookup_field "errors" fields) = false ->
      toast_text (JsonObject fields) = Ok (lookup_field "errors" fields))
  /\ (exists e, toast_text JsonNull = Throw e).
Proof.
  unfold toast_text. simpl. repeat split.
  - destruct (lookup_field "errors" fields); simpl; try discriminate; reflexivity.
  - intros x rest ->. simpl. destruct (nullish x); reflexivity.
  - intros ->. reflexivity.
  - intros Hfalsy Hnn. rewrite Hfalsy, Hnn. reflexivity.
  - eexists; reflexivity.
Qed.

Lemma toast_text_cases_witness :
  toast_text (JsonObject [("message", JsonString "Validation error(s)");
                          ("errors", JsonArray [JsonString "email - Required"])])
  = Ok (JsonString "email - Required").
Proof.
  exact (proj1 (proj2 (toast_text_cases
    [("message", JsonString "Validation error(s)");
     ("errors", JsonArray [JsonString "email - Required"])]))
    (JsonString "email - Required") [] eq_refl).
Defined.

(** X14. The form in front of the backend. When [fetch] delivers what the
    [/send-otp] handler wrote, the handler has written exactly one response;
    if it is the 200 the form records the email and shows the success toast,
    and otherwise the email state is untouched and the error toast shows the
    handler's [message] ("Email is required", "Invalid email domain" or
    "Failed to send OTP"), never the exception the handler put in the
    body. *)
Theorem form_shows_backend_message
    (serialize : Exn -> Json) (w : World) (b : Browser) (f : EmailField) (ui : Ui) :
  fetch b (backendUrl b ++ "/send-otp") (SendOtpBody f) = serve_send_otp serialize w f ->
  exists r,
    sent (fst (send_otp_handler w (JString (email f)) init)) = [r]
    /\ (status r = 200%Z ->
        emailField (fst (form_registerEmail b f ui)) = Some f
        /\ toasts (events (fst (form_registerEmail b f ui)))
           = (toasts (events ui)
              ++ [ToastSuccess ("OTP has been sent to " ++ email f)%string])%list)
    /\ (status r <> 200%Z ->
        emailField (fst (form_registerEmail b f ui)) = emailField ui
        /\ toasts (events (fst (form_registerEmail b f ui)))
           = (toasts (events ui) ++ [ToastError (JsonString (message r))])%list).
Proof.
  intros Hfetch. unfold serve_send_otp in Hfetch.
  destruct (send_otp_answers_string w (email f)) as [r [Hsent Hcases]].
  rewrite Hsent in Hfetch. exists r. split; [exact Hsent |].
  ui_unfold. rewrite Hfetch. simpl.
  destruct Hcases as [-> | [-> | [-> | [x ->]]]]; simpl; ui_events;
    (split; [intros Hst | intros Hst]);
    try discriminate Hst; try (now destruct Hst); split; reflexivity.
Qed.

Lemma form_shows_backend_message_witness :
  exists r,
    sent (fst (send_otp_handler smtp_down (JString "bob@pse.dev") init)) = [r]
    /\ toasts (events (fst (form_registerEmail (browser_of smtp_down)
                              {| email := "bob@pse.dev" |} start)))
       = [ToastError (JsonString (message r))].
Proof.
  destruct (form_shows_backend_message (fun _ => JsonObject []) smtp_down
              (browser_of smtp_down) {| email := "bob@pse.dev" |} start eq_refl)
    as [r [Hsent _]].
  exists r. split; [exact Hsent |].
  injection Hsent as <-. reflexivity.
Defined.

(** ** The sign-up page *)

(** X15. [registerEmail] of the page catches every exception, sends exactly
    one request, shows no toast and leaves [localStorage] alone; it records
    the email exactly when [fetch] returned an [ok] response. The body of an
    [ok] response is never read, so it need not parse. *)
Theorem page_records_email_iff_ok (b : Browser) (f : EmailField) (ui : Ui) :
  snd (registerEmail b f ui) = Ok tt
  /\ emailField (fst (registerEmail b f ui))
     = (if page_accepted b f then Some f else emailField ui)
  /\ requests (events (fst (registerEmail b f ui)))
     = (requests (events ui)
        ++ [("http://localhost:3001/send-otp", SendOtpBody f)])%list
  /\ toasts (events (fst (registerEmail b f ui))) = toasts (events ui)
  /\ localStorage (fst (registerEmail b f ui)) = localStorage ui.
Proof.
  unfold page_accepted. ui_unfold.
  destruct (fetch b "http://localhost:3001/send-otp" (SendOtpBody f))
    as [response | x]; simpl.
  2:{ ui_events. repeat split; reflexivity. }
  destruct (res_ok response); simpl.
  { ui_events. repeat split; reflexivity. }
  destruct (res_json response) as [json | x]; simpl; ui_events;
    repeat split; reflexivity.
Qed.

(** Case analysis on every collaborator [verifyOtp] awaits, in order. *)
Ltac each_page_path b ui :=
  ui_unfold;
  repeat match goal with
    | |- context [match privateKeyToAccount b ?k with _ => _ end] =>
        destruct (privateKeyToAccount b k) as [? | ?] eqn:?; simpl
    | |- context [match signerToEcdsaKernelSmartAccount b ?k with _ => _ end] =>
        destruct (signerToEcdsaKernelSmartAccount b k) as [? | ?] eqn:?; simpl
    | |- context [match emailField ui with _ => _ end] =>
        destruct (emailField ui) as [? |] eqn:?; simpl
    | |- context [match signMessage b ?a ?m with _ => _ end] =>
        destruct (signMessage b a m) as [? | ?] eqn:?; simpl
    | |- context [match newIdentity b ?k with _ => _ end] =>
        destruct (newIdentity b k) as [? | ?] eqn:?; simpl
    | |- context [match BigInt b ?k with _ => _ end] =>
        destruct (BigInt b k) as [? | ?] eqn:?; simpl
    | |- context [match genKeyPair b ?k with _ => _ end] =>
        destruct (genKeyPair b k) as [? | ?] eqn:?; simpl
    | |- context [match fetch b ?u ?k with _ => _ end] =>
        destruct (fetch b u k) as [? | ?] eqn:?; simpl
    | |- context [res_ok ?r] =>
        destruct (res_ok r) eqn:?; simpl
    | |- context [match res_json ?r with _ => _ end] =>
        destruct (res_json r) as [? | ?] eqn:?; simpl
    end.

(** X16. [verifyOtp] writes only its five keys: every other entry of
    [localStorage], the [registering] flag and the [emailField] state are
    the same after the call as before, on every path, including the ones
    that end in an exception. *)
Theorem verifyOtp_touches_only_its_keys
    (b : Browser) (o : OtpField) (ui : Ui) (k : string) :
  k ∉ page_keys ->
  localStorage (fst (verifyOtp b o ui)) !! k = localStorage ui !! k
  /\ emailField (fst (verifyOtp b o ui)) = emailField ui
  /\ registering (fst (verifyOtp b o ui)) = registering ui.
Proof.
  intros Hk. unfold page_keys in Hk.
  assert (Hne : k <> "ecdsaPrivKey" /\ k <> "accountAddress"
                /\ k <> "maciPrivKey" /\ k <> "maciPubKey"
                /\ k <> "semaphoreIdentity").
  { repeat split; intros ->; apply Hk; set_solver. }
  destruct Hne as (H1 & H2 & H3 & H4 & H5). clear Hk.
  each_page_path b ui; repeat split; try reflexivity;
    repeat (rewrite lookup_insert_ne by congruence); reflexivity.
Qed.

Lemma verifyOtp_touches_only_its_keys_witness :
  localStorage (fst (verifyOtp (browser_of happy) {| otp := JNumber 4821 |} start))
    !! "theme"
  = localStorage start !! "theme".
Proof.
  refine (proj1 (verifyOtp_touches_only_its_keys (browser_of happy)
                   {| otp := JNumber 4821 |} start "theme" _)).
  unfold page_keys. rewrite !elem_of_cons, elem_of_nil.
  intros [H | [H | [H | [H | [H | []]]]]]; discriminate H.
Defined.

(** X17. When [verifyOtp] returns, the five keys hold what this call
    generated, whatever the backend answered, and the one request sent
    carries the registered email, the submitted OTP, the address stored
    under "accountAddress" and the commitment of the identity whose private
    key is stored under "semaphoreIdentity". *)
Theorem verifyOtp_stores_what_it_sends (b : Browser) (o : OtpField) (ui : Ui) :
  snd (verifyOtp b o ui) = Ok tt ->
  exists field signer account signature identity seed pair,
    emailField ui = Some field
    /\ privateKeyToAccount b (generatePrivateKey b) = Ok signer
    /\ signerToEcdsaKernelSmartAccount b signer = Ok account
    /\ signMessage b account ("Generate your EdDSA Key Pair at " ++ origin b)
       = Ok signature
    /\ newIdentity b signature = Ok identity
    /\ BigInt b signature = Ok seed
    /\ genKeyPair b seed = Ok pair
    /\ localStorage (fst (verifyOtp b o ui)) !! "ecdsaPrivKey"
       = Some (generatePrivateKey b)
    /\ localStorage (fst (verifyOtp b o ui)) !! "accountAddress"
       = Some (address account)
    /\ localStorage (fst (verifyOtp b o ui)) !! "maciPrivKey"
       = Some (privateKey pair)
    /\ localStorage (fst (verifyOtp b o ui)) !! "maciPubKey"
       = Some (publicKey pair)
    /\ localStorage (fst (verifyOtp b o ui)) !! "semaphoreIdentity"
       = Some (privateKey_text identity)
    /\ requests (events (fst (verifyOtp b o ui)))
       = (requests (events ui)
          ++ [("http://localhost:3001/verify-otp",
               VerifyOtpBody (email field) (otp o) (address account)
                 (commitment_text identity))])%list.
Proof.
  each_page_path b ui; intros Hret; try discriminate Hret;
    eexists _, _, _, _, _, _, _;
    repeat (split; [first [eassumption | reflexivity] |]);
    ui_events;
    repeat (split; [repeat (rewrite lookup_insert_ne by discriminate);
                    apply lookup_insert_eq |]);
    reflexivity.
Qed.

Lemma verifyOtp_stores_what_it_sends_witness :
  exists field signer account signature identity seed pair,
    emailField {| registering := false;
                  emailField := Some {| email := "bob@pse.dev" |};
                  localStorage := ∅; events := [] |} = Some field
    /\ privateKeyToAccount (browser_of happy) (generatePrivateKey (browser_of happy))
       = Ok signer
    /\ signerToEcdsaKernelSmartAccount (browser_of happy) signer = Ok account
    /\ signMessage (browser_of happy) account
         ("Generate your EdDSA Key Pair at " ++ origin (browser_of happy))
       = Ok signature
    /\ newIdentity (browser_of happy) signature = Ok identity
    /\ BigInt (browser_of happy) signature = Ok seed
    /\ genKeyPair (browser_of happy) seed = Ok pair.
Proof.
  destruct (verifyOtp_stores_what_it_sends (browser_of happy)
              {| otp := JNumber 4821 |}
              {| registering := false;
                 emailField := Some {| email := "bob@pse.dev" |};
                 localStorage := ∅; events := [] |} eq_refl)
    as (field & signer & account & signature & identity & seed & pair
        & H1 & H2 & H3 & H4 & H5 & H6 & H7 & _).
  exists field, signer, account, signature, identity, seed, pair.
  repeat split; assumption.
Defined.

(** X18. The page navigates to "/signup" at most once per call, and only
    after a request to [/verify-otp] that [fetch] answered with an [ok]
    response; a failed fetch, a response that is not [ok] and every
    exception before the request leave the user where they are. *)
Theorem verifyOtp_navigates_only_when_ok (b : Browser) (o : OtpField) (ui : Ui) :
  (pushes (events (fst (verifyOtp b o ui))) = pushes (events ui)
   \/ pushes (events (fst (verifyOtp b o ui)))
      = (pushes (events ui) ++ ["/signup"])%list)
  /\ (pushes (events (fst (verifyOtp b o ui)))
      = (pushes (events ui) ++ ["/signup"])%list ->
      exists body response,
        requests (events (fst (verifyOtp b o ui)))
        = (requests (events ui)
           ++ [("http://localhost:3001/verify-otp", body)])%list
        /\ fetch b "http://localhost:3001/verify-otp" body = Ok response
        /\ res_ok response = true)
  /\ (forall body response,
        requests (events (fst (verifyOtp b o ui)))
        = (requests (events ui)
           ++ [("http://localhost:3001/verify-otp", body)])%list ->
        fetch b "http://localhost:3001/verify-otp" body = Ok response ->
        res_ok response = true ->
        pushes (events (fst (verifyOtp b o ui)))
        = (pushes (events ui) ++ ["/signup"])%list).
Proof.
  assert (Hnil : forall l : list string, l <> (l ++ ["/signup"])%list).
  { intros l Heq. apply (f_equal length) in Heq. rewrite length_app in Heq.
    simpl in Heq. lia. }
  assert (Hreq : forall (l : list (string * FetchBody)) x, l <> (l ++ [x])%list).
  { intros l x Heq. apply (f_equal length) in Heq. rewrite length_app in Heq.
    simpl in Heq. lia. }
  each_page_path b ui; ui_events;
    (split; [first [left; reflexivity | right; reflexivity] |]);
    (split;
     [ intros Hpush;
       first [ now apply Hnil in Hpush
             | eexists _, _;
               split; [reflexivity | split; [eassumption | assumption]] ]
     | intros body response Hrq Hf Hok;
       first [ now apply Hreq in Hrq
             | reflexivity
             | apply app_inv_head in Hrq; injection Hrq as <-; congruence ] ]).
Qed.

(** X19. The account keys are replaced before anything else is checked.
    Once the kernel account is built, "ecdsaPrivKey" and "accountAddress"
    hold the new key and address on every path; in particular when no email
    has been registered yet the call ends in a [TypeError] and sends no
    request, but the stored account is already the new one. *)
Theorem verifyOtp_replaces_account_first
    (b : Browser) (o : OtpField) (ui : Ui) (signer : string) (account : KernelAccount) :
  privateKeyToAccount b (generatePrivateKey b) = Ok signer ->
  signerToEcdsaKernelSmartAccount b signer = Ok account ->
  localStorage (fst (verifyOtp b o ui)) !! "ecdsaPrivKey"
    = Some (generatePrivateKey b)
  /\ localStorage (fst (verifyOtp b o ui)) !! "accountAddress"
     = Some (address account)
  /\ (emailField ui = None ->
      (exists e, snd (verifyOtp b o ui) = Throw e)
      /\ requests (events (fst (verifyOtp b o ui))) = requests (events ui)
      /\ localStorage (fst (verifyOtp b o ui))
         = <["accountAddress" := address account]>
             (<["ecdsaPrivKey" := generatePrivateKey b]> (localStorage ui))).
Proof.
  intros Hsigner Haccount. ui_unfold. rewrite Hsigner. simpl.
  rewrite Haccount. simpl.
  each_page_path b ui; ui_events;
    (split; [repeat (rewrite lookup_insert_ne by discriminate);
             apply lookup_insert_eq |]);
    (split; [repeat (rewrite lookup_insert_ne by discriminate);
             apply lookup_insert_eq |]);
    intros Hnone; try discriminate Hnone;
    split; [eexists; reflexivity | split; reflexivity].
Qed.

Lemma verifyOtp_replaces_account_first_witness :
  localStorage (fst (verifyOtp (browser_of happy) {| otp := JNumber 4821 |} start))
    !! "ecdsaPrivKey" = Some "0xKEY"
  /\ localStorage (fst (verifyOtp (browser_of happy) {| otp := JNumber 4821 |} start))
       !! "accountAddress" = Some "0xACC".
Proof.
  destruct (verifyOtp_replaces_account_first (browser_of happy)
              {| otp := JNumber 4821 |} start "signer:0xKEY" {| address := "0xACC" |}
              eq_refl eq_refl) as (H1 & H2 & _).
  split; [exact H1 | exact H2].
Defined.

End FrontendFacts.
